(** * dotty-mcp: the SBT session driver of [src/dotty_mcp/main.py]

    A shallow embedding of the two classes of [main.py], [SBTProcess] and
    [DottyProject], together with the part of Python ([str] methods,
    exceptions, [pathlib.Path.exists]) and of [pexpect] they rely on.

    Layout: Python text operations; exceptions and the state-and-exception
    monad; the pseudo-terminal child ([pexpect.spawn]); the file system and
    process launcher; [SBTProcess]; [DottyProject]; then the theorems. *)

From Stdlib Require Import String Ascii List ZArith Lia Bool.
From Stdlib Require Import DecimalString Decimal.
Import ListNotations.

Local Open Scope list_scope.
Local Open Scope string_scope.

(* ===================================================================== *)
(** ** Python text *)
(* ===================================================================== *)

(** A Python [str] is modelled as [String.string]; a character is the code
    point it denotes, restricted to the range 0..255 that [ascii] offers.
    [lower] and [isspace] are Python's on that range. *)
Module Str.

Definition LF : ascii := "010"%char.

(** The one-character string ['\n']. *)
Definition nl : string := String LF "".

Definition code (c : ascii) : nat := nat_of_ascii c.

(** [ch.isspace()]: tab, LF, VT, FF, CR, the separators 28..31, space,
    NEL (133) and the no-break space (160). *)
Definition isspace (c : ascii) : bool :=
  let n := code c in
  (((9 <=? n) && (n <=? 13)) || ((28 <=? n) && (n <=? 32))
   || (n =? 133) || (n =? 160))%nat.

(** [ch.lower()]: A..Z and the capital letters of Latin-1 (192..222
    without the multiplication sign 215) move up by 32. *)
Definition lower_char (c : ascii) : ascii :=
  let n := code c in
  if (((65 <=? n) && (n <=? 90))
      || ((192 <=? n) && (n <=? 222) && negb (n =? 215)))%nat
  then ascii_of_nat (n + 32) else c.

(** [s.lower()] *)
Fixpoint lower (s : string) : string :=
  match s with
  | EmptyString => EmptyString
  | String c r => String (lower_char c) (lower r)
  end.

(** [s.lstrip()] *)
Fixpoint lstrip (s : string) : string :=
  match s with
  | EmptyString => EmptyString
  | String c r => if isspace c then lstrip r else s
  end.

(** [s.rstrip()] *)
Fixpoint rstrip (s : string) : string :=
  match s with
  | EmptyString => EmptyString
  | String c r =>
      match rstrip r with
      | EmptyString => if isspace c then EmptyString else String c EmptyString
      | r' => String c r'
      end
  end.

(** [s.strip()] *)
Definition strip (s : string) : string := rstrip (lstrip s).

(** [needle in hay] on two [str]. *)
Fixpoint isin (needle hay : string) : bool :=
  prefix needle hay ||
  match hay with
  | EmptyString => false
  | String _ r => isin needle r
  end.

(** [s.split('\n')]: never the empty list. *)
Fixpoint split_lines (s : string) : list string :=
  match s with
  | EmptyString => [EmptyString]
  | String c r =>
      if Ascii.eqb c LF then EmptyString :: split_lines r
      else match split_lines r with
           | l :: ls => String c l :: ls
           | [] => [String c EmptyString]
           end
  end.

(** [sep.join(parts)] *)
Fixpoint join (sep : string) (parts : list string) : string :=
  match parts with
  | [] => EmptyString
  | [p] => p
  | p :: ps => p ++ sep ++ join sep ps
  end.

(** [str(n)] for a non-negative [int]. *)
Definition of_nat (n : nat) : string := NilZero.string_of_uint (Nat.to_uint n).

(** [str(z)] for an [int]. *)
Definition of_Z (z : Z) : string := NilZero.string_of_int (Z.to_int z).

(** Truthiness of a [str]: non-empty. *)
Definition truthy (s : string) : bool :=
  match s with EmptyString => false | _ => true end.

End Str.

(* ===================================================================== *)
(** ** Exceptions and the monad of methods *)
(* ===================================================================== *)

(** [pexpect.TIMEOUT] and [pexpect.EOF]: exception classes that double as
    sentinel patterns of [expect]. *)
Inductive sentinel : Type := TIMEOUT | EOF.

(** The exceptions (all subclasses of [Exception]) that the program meets. *)
Inductive exn : Type :=
| ValueError (msg : string)
| RuntimeError (msg : string)
| Pexpect (s : sentinel) (msg : string)
| OtherError (msg : string).

(** [str(e)] *)
Definition exn_str (e : exn) : string :=
  match e with
  | ValueError m | RuntimeError m | Pexpect _ m | OtherError m => m
  end.

Inductive res (A : Type) : Type :=
| Ok (a : A)
| Raise (e : exn).
Arguments Ok {A} a.
Arguments Raise {A} e.

(** A method running on a mutable state [St]: it returns or raises, and in
    both cases leaves a state behind (a raise undoes no mutation). *)
Definition M (St A : Type) : Type := St -> res A * St.

Definition ret {St A} (a : A) : M St A := fun s => (Ok a, s).

Definition raise {St A} (e : exn) : M St A := fun s => (Raise e, s).

Definition bind {St A B} (m : M St A) (k : A -> M St B) : M St B :=
  fun s => match m s with
           | (Ok a, s') => k a s'
           | (Raise e, s') => (Raise e, s')
           end.

Definition gets {St A} (f : St -> A) : M St A := fun s => (Ok (f s), s).

Definition modify {St} (f : St -> St) : M St unit := fun s => (Ok tt, f s).

(** [try: body  except ... as e: handler e] *)
Definition try_except {St A} (body : M St A) (handler : exn -> M St A) : M St A :=
  fun s => match body s with
           | (Ok a, s') => (Ok a, s')
           | (Raise e, s') => handler e s'
           end.

(** Run a method of a component of the state. *)
Definition zoom {St T A} (get : T -> St) (set : St -> T -> T) (m : M St A) : M T A :=
  fun t => let (r, s') := m (get t) in (r, set s' t).

Declare Scope py_scope.
Delimit Scope py_scope with py.
Notation "x <- m ;; k" := (bind m (fun x => k))
  (at level 61, m at next level, right associativity) : py_scope.
Notation "m ;; k" := (bind m (fun _ => k))
  (at level 61, right associativity) : py_scope.
Local Open Scope py_scope.

(* ===================================================================== *)
(** ** The pseudo-terminal child: [pexpect.spawn] *)
(* ===================================================================== *)

(** [pexpect] is not part of the repository. Its child object is modelled
    as a scripted channel: what the child will show is a list of events, and
    every operation the program performs on the child is recorded. *)
Module Pexpect.

(** An element of the pattern list of [expect]: a regular expression, or
    one of the classes [pexpect.TIMEOUT] / [pexpect.EOF]. *)
Inductive pattern : Type :=
| Re (regex : string)
| Sentinel (s : sentinel).

Definition pattern_eqb (p q : pattern) : bool :=
  match p, q with
  | Re a, Re b => String.eqb a b
  | Sentinel TIMEOUT, Sentinel TIMEOUT => true
  | Sentinel EOF, Sentinel EOF => true
  | _, _ => false
  end.

(** What one blocking read meets on the child's side. *)
Inductive event : Type :=
| Prompt (text : string) (regex : string)
    (* [text] arrives, then a prompt that [regex] is the first to match *)
| Quiet (text : string)
    (* [text] arrives, then nothing until the deadline *)
| Hangup (text : string)
    (* [text] arrives, then the child closes the stream *)
| Broken (msg : string).
    (* the read fails with an error of the operating system *)

(** The operations performed on a child, oldest first. *)
Inductive op : Type :=
| Sendline (s : string)
| Expect (pats : list pattern) (timeout : Z)
| Terminate (force : bool).

(** The object returned by [pexpect.spawn(...)]. [pid] tells children
    apart; [alive] is what [isalive()] answers; [before] and [buffer] are
    the attributes of the same names. *)
Record spawn : Type := {
  pid : nat;
  alive : bool;
  before : string;
  buffer : string;
  feed : list event;
  trace : list op
}.

Definition logged (o : op) (c : spawn) : spawn :=
  {| pid := pid c; alive := alive c; before := before c; buffer := buffer c;
     feed := feed c; trace := (trace c ++ [o])%list |}.

(** [child.isalive()]. The flag drops when end of stream has been read
    (pexpect then reaps the child) and when the child is terminated. *)
Definition isalive (c : spawn) : bool := alive c.

(** [child.sendline(s)] *)
Definition sendline (s : string) : M spawn unit :=
  fun c =>
    if alive c then (Ok tt, logged (Sendline s) c)
    else (Raise (OtherError "[Errno 5] Input/output error"), c).

(** Position of the first element of [pats] equal to [p]. *)
Fixpoint index_of (p : pattern) (pats : list pattern) : option nat :=
  match pats with
  | [] => None
  | q :: rest =>
      if pattern_eqb p q then Some 0
      else match index_of p rest with
           | Some i => Some (S i)
           | None => None
           end
  end.

(** How a read ends: a pattern of the list matched, a sentinel condition
    arose, or the read itself failed. *)
Inductive reading : Type :=
| Hit (index : nat)
| Miss (s : sentinel)
| Crash (msg : string).

(** Consume events until one settles the read. A prompt that none of the
    patterns recognises is passed over: reading goes on. The result
    carries the text seen before the end of the read and the events left. *)
Fixpoint scan (pats : list pattern) (acc : string) (evs : list event)
  : reading * string * list event :=
  match evs with
  | [] => (Miss TIMEOUT, acc, [])
  | Prompt text regex :: rest =>
      match index_of (Re regex) pats with
      | Some i => (Hit i, acc ++ text, rest)
      | None => scan pats (acc ++ text) rest
      end
  | Quiet text :: rest => (Miss TIMEOUT, acc ++ text, rest)
  | Hangup text :: _ => (Miss EOF, acc ++ text, [])
  | Broken msg :: rest => (Crash msg, acc, rest)
  end.

Definition sentinel_msg (s : sentinel) : string :=
  match s with
  | TIMEOUT => "Timeout exceeded."
  | EOF => "End Of File (EOF)."
  end.

(** [child.expect(pats, timeout=timeout)]: the index of the pattern that
    matched. A sentinel condition returns the index of its class when the
    class is in [pats], and raises it otherwise. After a timeout the text
    read so far stays in [buffer] and is seen again by the next read; end
    of stream empties the buffer and ends the child's life. *)
Definition expect (pats : list pattern) (timeout : Z) : M spawn nat :=
  fun c0 =>
    let c := logged (Expect pats timeout) c0 in
    let '(r, seen, rest) :=
      if alive c then scan pats (buffer c) (feed c)
      else (Miss EOF, buffer c, []) in
    match r with
    | Hit i =>
        (Ok i, {| pid := pid c; alive := alive c; before := seen;
                  buffer := ""; feed := rest; trace := trace c |})
    | Miss s =>
        let c' := {| pid := pid c;
                     alive := match s with EOF => false | TIMEOUT => alive c end;
                     before := seen;
                     buffer := match s with EOF => "" | TIMEOUT => seen end;
                     feed := rest; trace := trace c |} in
        match index_of (Sentinel s) pats with
        | Some i => (Ok i, c')
        | None => (Raise (Pexpect s (sentinel_msg s)), c')
        end
    | Crash msg =>
        (Raise (OtherError msg),
         {| pid := pid c; alive := alive c; before := before c;
            buffer := buffer c; feed := rest; trace := trace c |})
    end.

(** [child.terminate(force=force)]: a child already gone is left alone;
    otherwise the signals are sent ([SIGKILL] last when forced) and the
    child is gone. *)
Definition terminate (force : bool) : M spawn bool :=
  fun c =>
    if alive c
    then (Ok true, {| pid := pid c; alive := false; before := before c;
                      buffer := buffer c; feed := feed c;
                      trace := (trace c ++ [Terminate force])%list |})
    else (Ok true, c).

End Pexpect.

(* ===================================================================== *)
(** ** The file system and the process launcher *)
(* ===================================================================== *)

Module OS.

(** What [stat] says of a path. *)
Inductive stat : Type :=
| Present
| Absent
| Denied (msg : string).

(** What launching the [n]-th child does: the child starts and will show
    the given events, or the launch itself fails. *)
Inductive launching : Type :=
| Starts (feed : list Pexpect.event)
| Fails (msg : string).

(** The world outside the program. [spawned] counts the calls of
    [pexpect.spawn]. *)
Record World : Type := {
  fs : string -> stat;
  launcher : nat -> launching;
  spawned : nat
}.

(** [path.exists()]: errors other than "no such file" propagate. *)
Definition exists_ (path : string) : M World bool :=
  fun w => match fs w path with
           | Present => (Ok true, w)
           | Absent => (Ok false, w)
           | Denied msg => (Raise (OtherError msg), w)
           end.

Fixpoint ends_with_slash (s : string) : bool :=
  match s with
  | EmptyString => false
  | String c EmptyString => Ascii.eqb c "/"%char
  | String _ r => ends_with_slash r
  end.

(** [root / name] *)
Definition joinpath (root name : string) : string :=
  if ends_with_slash root then root ++ name else root ++ "/" ++ name.

(** The call [pexpect.spawn(command, cwd=cwd, encoding='utf-8',
    timeout=300, echo=False)]. *)
Definition launch (command cwd : string) : M World Pexpect.spawn :=
  fun w =>
    let n := spawned w in
    let w' := {| fs := fs w; launcher := launcher w; spawned := S n |} in
    match launcher w n with
    | Starts evs =>
        (Ok {| Pexpect.pid := n; Pexpect.alive := true;
               Pexpect.before := ""; Pexpect.buffer := "";
               Pexpect.feed := evs; Pexpect.trace := [] |}, w')
    | Fails msg => (Raise (OtherError msg), w')
    end.

End OS.

(* ===================================================================== *)
(** ** [class SBTProcess] *)
(* ===================================================================== *)

Module SBTProcess.

Import Pexpect.

(** The attributes set by [__init__]. *)
Record t : Type := mk {
  root : string;
  process : option Pexpect.spawn
}.

Definition set_process (p : option Pexpect.spawn) (self : t) : t :=
  {| root := root self; process := p |}.

(** A method of [self.process]; on [None] the attribute access fails. *)
Definition on_process {A} (m : M Pexpect.spawn A) : M t A :=
  fun self =>
    match process self with
    | Some c => let (r, c') := m c in (r, set_process (Some c') self)
    | None => (Raise (OtherError "'NoneType' object has no attribute"), self)
    end.

(** Methods that also touch the world run on the pair of both. *)
Definition in_world {T A} (m : M OS.World A) : M (OS.World * T) A :=
  zoom fst (fun w st => (w, snd st)) m.

Definition in_self {T A} (m : M T A) : M (OS.World * T) A :=
  zoom snd (fun s st => (fst st, s)) m.

(** The two prompt patterns (lines 49-50) and the steady one (line 95). *)
Definition standard_prompt : string := "sbt:\w+>\s*".
Definition simple_prompt : string := ">\s*$".

(** The pattern list of the startup read (lines 48-53). *)
Definition startup_patterns : list pattern :=
  [Re standard_prompt; Re simple_prompt; Sentinel TIMEOUT; Sentinel EOF].

(** [hasattr(self.process, 'buffer')] and ['before'] hold of a child and
    fail of [None] (lines 59-60, 67). *)
Definition attr_or_NA (f : Pexpect.spawn -> string) (p : option Pexpect.spawn) : string :=
  match p with
  | Some c => f c
  | None => "N/A"
  end.

(** [_start_process] (lines 29-73). *)
Definition _start_process : M (OS.World * t) unit :=
  root_ <- gets (fun st => root (snd st)) ;;
  present <- in_world (OS.exists_ root_) ;;
  if negb present
  then raise (ValueError ("Project root " ++ root_ ++ " does not exist."))
  else
  marker <- in_world (OS.exists_ (OS.joinpath root_ "build.sbt")) ;;
  if negb marker
  then raise (ValueError ("No build.sbt found in " ++ root_
                          ++ ". Not a valid SBT project."))
  else
  try_except
    (c <- in_world (OS.launch "sbt -no-colors" root_) ;;
     in_self (modify (set_process (Some c))) ;;
     index <- in_self (on_process (expect startup_patterns 120)) ;;
     if (3 <=? index)%nat
     then raise (RuntimeError ("Failed to match prompt. Index: "
                               ++ Str.of_nat index))
     else ret tt)
    (fun e =>
       match e with
       | Pexpect TIMEOUT _ =>
           p <- gets (fun st => process (snd st)) ;;
           let buffer_content := attr_or_NA buffer p in
           let before_content := attr_or_NA before p in
           raise (RuntimeError
                    ("SBT process failed to start within timeout period."
                     ++ Str.nl ++ "Buffer: " ++ buffer_content
                     ++ Str.nl ++ "Before: " ++ before_content))
       | Pexpect EOF _ =>
           p <- gets (fun st => process (snd st)) ;;
           let before_content := attr_or_NA before p in
           raise (RuntimeError
                    ("SBT process terminated unexpectedly during startup."
                     ++ Str.nl ++ "Before: " ++ before_content))
       | _ =>
           raise (RuntimeError ("Failed to start SBT process: " ++ exn_str e))
       end).

(** Lines 101-104: drop the echoed command, join, strip. *)
Definition clean_output (command output : string) : string :=
  let lines := Str.split_lines output in
  let lines :=
    match lines with
    | first :: rest => if Str.isin command first then rest else lines
    | [] => lines
    end in
  Str.strip (Str.join Str.nl lines).

(** Line 108: [1 if '[error]' in output.lower() else 0]. *)
Definition exit_code_of (output : string) : Z :=
  if Str.isin "[error]" (Str.lower output) then 1%Z else 0%Z.

(** Line 86: [self.process is None or not self.process.isalive()]. *)
Definition not_running (self : t) : bool :=
  match process self with
  | None => true
  | Some c => negb (isalive c)
  end.

(** [execute_command] (lines 75-117). *)
Definition execute_command (command : string) (timeout : Z) : M t (string * Z) :=
  stopped <- gets not_running ;;
  if stopped
  then raise (RuntimeError "SBT process is not running")
  else
  try_except
    (on_process (sendline command) ;;
     on_process (expect [Re standard_prompt] timeout) ;;
     output <- on_process (gets before) ;;
     let output := clean_output command output in
     let exit_code := exit_code_of output in
     ret (output, exit_code))
    (fun e =>
       match e with
       | Pexpect TIMEOUT _ =>
           ret ("Command timed out after " ++ Str.of_Z timeout ++ " seconds", 1%Z)
       | Pexpect EOF _ =>
           ret ("SBT process terminated unexpectedly", 1%Z)
       | _ =>
           ret ("Error executing command: " ++ exn_str e, 1%Z)
       end).

(** [close] (lines 119-126); the bare [except:] takes every exception. *)
Definition close : M t unit :=
  p <- gets process ;;
  match p with
  | Some c =>
      if isalive c
      then try_except
             (on_process (sendline "exit") ;;
              on_process (expect [Sentinel EOF] 10) ;;
              ret tt)
             (fun _ => on_process (terminate true) ;; ret tt)
      else ret tt
  | None => ret tt
  end.

(** [__del__] (lines 128-130). *)
Definition __del__ : M t unit := close.

(** [__init__] (lines 18-27). *)
Definition __init__ (root_ : string) : M (OS.World * t) unit :=
  modify (fun st => (fst st, {| root := root_; process := None |})) ;;
  _start_process.

(** The call [SBTProcess(root)]: the new object when [__init__] returns.
    When [__init__] raises, the object is bound to no name; its finaliser
    acts on its own child only and leaves the world as it is. *)
Definition new (root_ : string) : M OS.World t :=
  fun w =>
    match __init__ root_ (w, {| root := root_; process := None |}) with
    | (Ok _, (w', self)) => (Ok self, w')
    | (Raise e, (w', _)) => (Raise e, w')
    end.

End SBTProcess.

(* ===================================================================== *)
(** ** [class DottyProject] *)
(* ===================================================================== *)

Module DottyProject.

(** The attributes set by [__init__] (lines 136-144). *)
Record t : Type := mk {
  root : string;
  sbt_process : option SBTProcess.t
}.

Definition __init__ (root_ : string) : t :=
  {| root := root_; sbt_process := None |}.

Definition set_sbt_process (s : option SBTProcess.t) (self : t) : t :=
  {| root := root self; sbt_process := s |}.

(** A method of [self.sbt_process]. *)
Definition on_sbt_process {A} (m : M SBTProcess.t A) : M (OS.World * t) A :=
  fun st =>
    match sbt_process (snd st) with
    | Some s => let (r, s') := m s in (r, (fst st, set_sbt_process (Some s') (snd st)))
    | None => (Raise (OtherError "'NoneType' object has no attribute"), st)
    end.

(** [ensure_sbt_running] (lines 146-149). *)
Definition ensure_sbt_running : M (OS.World * t) unit :=
  held <- gets (fun st => sbt_process (snd st)) ;;
  match held with
  | None =>
      root_ <- gets (fun st => root (snd st)) ;;
      s <- SBTProcess.in_world (SBTProcess.new root_) ;;
      modify (fun st => (fst st, set_sbt_process (Some s) (snd st)))
  | Some _ => ret tt
  end.

(** The three handlers shared by [scalac] and [testCompilation]
    (lines 187-192 and 222-227). *)
Definition report (e : exn) : string :=
  match e with
  | ValueError _ => "Error: " ++ exn_str e
  | RuntimeError _ => "Error: " ++ exn_str e
  | _ => "Unexpected error: " ++ exn_str e
  end.

(** The [try] block of [scalac] (lines 167-185). *)
Definition scalac_body (file : string) (options : list string) : M (OS.World * t) string :=
  ensure_sbt_running ;;
  let all_options :=
    ("-color:never" :: match options with [] => [] | _ => options end)%list in
  let options_str := Str.join " " all_options in
  let command := "scalac " ++ file ++ " " ++ options_str in
  r <- on_sbt_process (SBTProcess.execute_command command 300) ;;
  let (output, exit_code) := r in
  if (exit_code =? 0)%Z && negb (Str.truthy output)
  then ret ("Successfully compiled " ++ file)
  else if (exit_code =? 0)%Z && Str.truthy output
  then ret ("Successfully compiled " ++ file ++ Str.nl ++ Str.nl
            ++ "Output:" ++ Str.nl ++ output)
  else ret ("Compilation failed for " ++ file ++ Str.nl ++ Str.nl ++ output).

(** [scalac] (lines 151-192). *)
Definition scalac (file : string) (options : list string) : M (OS.World * t) string :=
  try_except (scalac_body file options) (fun e => ret (report e)).

(** The [try] block of [testCompilation] (lines 205-220). *)
Definition testCompilation_body (pattern : string) : M (OS.World * t) string :=
  ensure_sbt_running ;;
  let command :=
    if Str.truthy pattern then "testCompilation " ++ pattern
    else "testCompilation" in
  r <- on_sbt_process (SBTProcess.execute_command command 300) ;;
  let (output, exit_code) := r in
  if (exit_code =? 0)%Z
  then ret (if Str.truthy output
            then "Test compilation succeeded" ++ Str.nl ++ Str.nl ++ output
            else "Test compilation succeeded")
  else ret ("Test compilation failed" ++ Str.nl ++ Str.nl ++ output).

(** [testCompilation] (lines 194-227). *)
Definition testCompilation (pattern : string) : M (OS.World * t) string :=
  try_except (testCompilation_body pattern) (fun e => ret (report e)).

(** [close] (lines 229-232): forwards to the held session; the reference
    stays as it is. *)
Definition close : M (OS.World * t) unit :=
  held <- gets (fun st => sbt_process (snd st)) ;;
  match held with
  | Some _ => on_sbt_process SBTProcess.close
  | None => ret tt
  end.

End DottyProject.

(* ===================================================================== *)
(** ** Vocabulary of the statements *)
(* ===================================================================== *)

Module Spec.

Import Pexpect.

(** The text up to the first line feed. *)
Fixpoint first_line (s : string) : string :=
  match s with
  | EmptyString => EmptyString
  | String c r => if Ascii.eqb c Str.LF then EmptyString else String c (first_line r)
  end.

(** The text after the first line feed; empty when there is none. *)
Fixpoint after_first_line (s : string) : string :=
  match s with
  | EmptyString => EmptyString
  | String c r => if Ascii.eqb c Str.LF then r else after_first_line r
  end.

(** An unaccented letter A..Z or a..z. *)
Definition is_letter (c : ascii) : bool :=
  let n := Str.code c in
  (((65 <=? n) && (n <=? 90)) || ((97 <=? n) && (n <=? 122)))%nat.

(** The same character up to the case of a letter A..Z / a..z. *)
Definition same_caseless (a b : ascii) : bool :=
  Ascii.eqb a b
  || (is_letter a && is_letter b
      && ((Str.code a + 32 =? Str.code b) || (Str.code b + 32 =? Str.code a))%nat).

(** Two texts equal up to letter case, character by character. *)
Fixpoint caseless_eqb (s t : string) : bool :=
  match s, t with
  | EmptyString, EmptyString => true
  | String a s', String b t' => same_caseless a b && caseless_eqb s' t'
  | _, _ => false
  end.

(** [text] contains [marker] written in some letter case. *)
Definition mentions (marker text : string) : Prop :=
  exists pre m post,
    text = pre ++ m ++ post /\ caseless_eqb m marker = true.

(** The operations performed on the child of a session, if it has one. *)
Definition channel_trace (self : SBTProcess.t) : list op :=
  match SBTProcess.process self with
  | Some c => trace c
  | None => []
  end.

(** The bounded wait of [close] meets end of stream. *)
Definition exits_on_request (self : SBTProcess.t) : bool :=
  match SBTProcess.process self with
  | Some c =>
      match scan [Sentinel EOF] (buffer c) (feed c) with
      | (Miss EOF, _, _) => true
      | _ => false
      end
  | None => false
  end.

(** A series of [execute_command] calls on one session. *)
Fixpoint execute_all (calls : list (string * Z)) (self : SBTProcess.t)
  : list (res (string * Z)) * SBTProcess.t :=
  match calls with
  | [] => ([], self)
  | (command, timeout) :: more =>
      let (r, self') := SBTProcess.execute_command command timeout self in
      let (rs, self'') := execute_all more self' in
      (r :: rs, self'')
  end.

(** The child [c] after [command] was sent and the read for its prompt
    ended, leaving the given liveness, [before], [buffer] and events. *)
Definition after_read (c : spawn) (command : string) (timeout : Z)
           (alive' : bool) (before' buffer' : string) (rest : list event) : spawn :=
  {| pid := pid c; alive := alive'; before := before'; buffer := buffer';
     feed := rest;
     trace := (trace c ++ [Sendline command;
                           Expect [Re SBTProcess.standard_prompt] timeout])%list |}.

(** The session [SBTProcess(root)] holds once the startup read has ended
    with the given [before], [buffer] and events left. *)
Definition started (root_ : string) (n : nat) (before' buffer' : string)
           (rest : list event) : SBTProcess.t :=
  {| SBTProcess.root := root_;
     SBTProcess.process :=
       Some {| pid := n; alive := true; before := before'; buffer := buffer';
               feed := rest;
               trace := [Expect SBTProcess.startup_patterns 120] |} |}.

(** The world after one more call of [pexpect.spawn]. *)
Definition one_more_spawn (w : OS.World) : OS.World :=
  {| OS.fs := OS.fs w; OS.launcher := OS.launcher w;
     OS.spawned := S (OS.spawned w) |}.

End Spec.

(* ===================================================================== *)
(** ** Concrete worlds and sessions *)
(* ===================================================================== *)

Module Scenario.

Import Pexpect OS.

(** A project at [/p] with its [build.sbt]; nothing else exists. *)
Definition project_fs (path : string) : stat :=
  if String.eqb path "/p" || String.eqb path "/p/build.sbt" then Present else Absent.

(** A world where every child launched shows [evs]. *)
Definition world (evs : list event) : World :=
  {| fs := project_fs; launcher := fun _ => Starts evs; spawned := 0 |}.

(** A child that is alive, idle at its prompt, and will show [evs]. *)
Definition child (evs : list event) : spawn :=
  {| pid := 0; alive := true; before := ""; buffer := ""; feed := evs;
     trace := [Expect SBTProcess.startup_patterns 120] |}.

(** A session that holds such a child. *)
Definition session (evs : list event) : SBTProcess.t :=
  {| SBTProcess.root := "/p"; SBTProcess.process := Some (child evs) |}.

(** A facade holding such a session, after one child was launched. *)
Definition facade (evs : list event) : World * DottyProject.t :=
  ({| fs := project_fs; launcher := fun _ => Starts evs; spawned := 1 |},
   {| DottyProject.root := "/p";
      DottyProject.sbt_process := Some (session evs) |}).

(** sbt starts and answers one command with a success line. *)
Definition healthy : list event :=
  [Prompt "[info] welcome to sbt" SBTProcess.simple_prompt;
   Prompt ("scalac Foo.scala -color:never" ++ Str.nl
           ++ "Successfully compiled Foo.scala" ++ Str.nl)
          SBTProcess.standard_prompt].

(** The state that the first [ensure_sbt_running] of a new facade leaves
    in the world of [healthy]. *)
Definition ready : World * DottyProject.t :=
  (Spec.one_more_spawn (world healthy),
   DottyProject.set_sbt_process
     (Some (Spec.started "/p" 0 "[info] welcome to sbt" "" (tl healthy)))
     (DottyProject.__init__ "/p")).

End Scenario.

(* ===================================================================== *)
(** ** The module level of [main.py] *)
(* ===================================================================== *)

(** The global [PROJECT] (line 236), the two tool functions (lines 243-303)
    and the [cleanup] that [main] registers with [atexit] (lines 324-326).
    The state is the world together with the value of [PROJECT]. *)
Module Server.

(** A method of the object bound to [PROJECT]. *)
Definition on_PROJECT {A} (m : M (OS.World * DottyProject.t) A)
  : M (OS.World * option DottyProject.t) A :=
  fun st =>
    match snd st with
    | Some p =>
        match m (fst st, p) with
        | (r, (w', p')) => (r, (w', Some p'))
        end
    | None => (Raise (OtherError "'NoneType' object has no attribute"), st)
    end.

(** The message of lines 272 and 301. *)
Definition no_project : string :=
  "Error: No Dotty project root specified. Use --root argument.".

(** The tool [scalac(file, options=None)] (lines 244-277). *)
Definition scalac (file : string) (options : option (list string))
  : M (OS.World * option DottyProject.t) string :=
  project <- gets snd ;;
  match project with
  | None => ret no_project
  | Some _ =>
      let options := match options with None => [] | Some o => o end in
      on_PROJECT (DottyProject.scalac file options)
  end.

(** The tool [testCompilation(pattern)] (lines 281-303); the default
    [pattern=""] is the caller's. *)
Definition testCompilation (pattern : string)
  : M (OS.World * option DottyProject.t) string :=
  project <- gets snd ;;
  match project with
  | None => ret no_project
  | Some _ => on_PROJECT (DottyProject.testCompilation pattern)
  end.

(** [cleanup] (lines 324-326): [if PROJECT: PROJECT.close()]. *)
Definition cleanup : M (OS.World * option DottyProject.t) unit :=
  project <- gets snd ;;
  match project with
  | Some _ => on_PROJECT DottyProject.close
  | None => ret tt
  end.

End Server.

(* ===================================================================== *)
(** ** Vocabulary of the further statements *)
(* ===================================================================== *)

Module Frame.

(** From [w] to [w'] the file system and the launcher are the same, and at
    most one child was launched. *)
Definition at_most_one_launch (w w' : OS.World) : Prop :=
  w' = w \/ w' = Spec.one_more_spawn w.

(** The command line that [scalac] builds (lines 170-174). *)
Definition scalac_command (file : string) (options : list string) : string :=
  "scalac " ++ file ++ " " ++ Str.join " " ("-color:never" :: options).

(** The command line that [testCompilation] builds (lines 208-211). *)
Definition testCompilation_command (pattern : string) : string :=
  match pattern with
  | EmptyString => "testCompilation"
  | _ => "testCompilation " ++ pattern
  end.

(** The child held by the session of a facade, if there is one. *)
Definition child_of (p : DottyProject.t) : option Pexpect.spawn :=
  match DottyProject.sbt_process p with
  | Some s => SBTProcess.process s
  | None => None
  end.

End Frame.

(* ===================================================================== *)
(** ** Facts about text *)
(* ===================================================================== *)

Section TextFacts.

Import Str.

Lemma prefix_append (n r : string) : prefix n (n ++ r) = true.
Proof.
  induction n as [|c n IH]; simpl.
  - now destruct r.
  - destruct (ascii_dec c c) as [_|ne]; [exact IH | now elim ne].
Qed.

Lemma prefix_inv (n h : string) :
  prefix n h = true -> exists r, h = n ++ r.
Proof.
  revert h; induction n as [|c n IH]; intros h H.
  - now exists h.
  - destruct h as [|d h]; simpl in H; [discriminate|].
    destruct (ascii_dec c d) as [->|_]; [|discriminate].
    destruct (IH _ H) as [r ->]. now exists r.
Qed.

Lemma isin_here (n h : string) : prefix n h = true -> isin n h = true.
Proof. intros H. destruct h; cbn [isin]; rewrite H; reflexivity. Qed.

Lemma isin_later (n : string) (c : ascii) (h : string) :
  isin n h = true -> isin n (String c h) = true.
Proof. intros H. cbn [isin]. rewrite H. apply orb_true_r. Qed.

(** [n in a + n + b] *)
Lemma isin_append (n a b : string) : isin n (a ++ n ++ b) = true.
Proof.
  induction a as [|c a IH].
  - change ("" ++ n ++ b) with (n ++ b). apply isin_here, prefix_append.
  - change (String c a ++ n ++ b) with (String c (a ++ n ++ b)).
    apply isin_later, IH.
Qed.

Lemma isin_inv (n h : string) :
  isin n h = true -> exists a b, h = a ++ n ++ b.
Proof.
  induction h as [|c h IH]; cbn [isin]; intros H.
  - rewrite orb_false_r in H. destruct (prefix_inv _ _ H) as [r E].
    now exists "", r.
  - apply orb_true_iff in H as [H|H].
    + destruct (prefix_inv _ _ H) as [r E]. now exists "", r.
    + destruct (IH H) as (a & b & ->). now exists (String c a), b.
Qed.

Lemma lower_append (a b : string) : lower (a ++ b) = lower a ++ lower b.
Proof. induction a as [|c a IH]; simpl; [reflexivity | now rewrite IH]. Qed.

Lemma lower_split (a b t : string) :
  lower t = a ++ b ->
  exists t1 t2, t = t1 ++ t2 /\ lower t1 = a /\ lower t2 = b.
Proof.
  revert t; induction a as [|c a IH]; intros t H.
  - now exists "", t.
  - destruct t as [|d t]; simpl in H; [discriminate|].
    injection H as Hc Ht. destruct (IH _ Ht) as (t1 & t2 & -> & <- & <-).
    exists (String d t1), t2. simpl. now rewrite Hc.
Qed.

Lemma split_lines_nonempty (s : string) :
  exists l ls, split_lines s = l :: ls.
Proof.
  destruct s as [|c s]; simpl; [now exists "", []|].
  destruct (Ascii.eqb c LF); [now exists "", (split_lines s)|].
  destruct (split_lines s) as [|l ls]; [now exists (String c ""), []|].
  now exists (String c l), ls.
Qed.

Lemma join_cons_char (c : ascii) (l : string) (ls : list string) :
  join nl (String c l :: ls) = String c (join nl (l :: ls)).
Proof. destruct ls; reflexivity. Qed.

(** ['\n'.join(s.split('\n')) == s] *)
Lemma join_split_lines (s : string) : join nl (split_lines s) = s.
Proof.
  induction s as [|c s IH]; [reflexivity|].
  cbn [split_lines].
  destruct (split_lines_nonempty s) as (l & ls & E).
  rewrite E in IH |- *.
  destruct (Ascii.eqb c LF) eqn:Ec.
  - apply Ascii.eqb_eq in Ec as ->.
    change (join nl ("" :: l :: ls)) with (String LF (join nl (l :: ls))).
    now rewrite IH.
  - now rewrite join_cons_char, IH.
Qed.

(** [split_lines] cuts at the first line feed. *)
Lemma split_lines_cons (s : string) :
  exists rest, split_lines s = Spec.first_line s :: rest
               /\ join nl rest = Spec.after_first_line s.
Proof.
  induction s as [|c s (rest & E & J)]; [now exists []|].
  cbn [split_lines Spec.first_line Spec.after_first_line].
  destruct (Ascii.eqb c LF).
  - exists (split_lines s). split; [reflexivity | apply join_split_lines].
  - rewrite E. now exists rest.
Qed.

End TextFacts.

(* ===================================================================== *)
(** ** Letter case and the error marker *)
(* ===================================================================== *)

Section Caseless.

Import Str.

(** For each character of the marker, lowering a character gives it
    exactly when the two agree up to the case of a letter. *)
Lemma marker_letters (x y : ascii) :
  In y (list_ascii_of_string "[error]") ->
  Ascii.eqb (lower_char x) y = Spec.same_caseless x y.
Proof.
  simpl. intros H.
  repeat (destruct H as [<-|H];
          [destruct x as [[] [] [] [] [] [] [] []]; vm_compute; reflexivity|]).
  contradiction.
Qed.

Lemma lower_caseless (marker m : string) :
  (forall x y, In y (list_ascii_of_string marker) ->
               Ascii.eqb (lower_char x) y = Spec.same_caseless x y) ->
  String.eqb (lower m) marker = Spec.caseless_eqb m marker.
Proof.
  revert m; induction marker as [|y marker IH]; intros m H.
  - now destruct m.
  - destruct m as [|x m]; [reflexivity|].
    cbn [lower String.eqb Spec.caseless_eqb].
    rewrite (H x y) by (now left).
    rewrite IH by (intros; apply H; now right).
    now destruct (Spec.same_caseless x y).
Qed.

(** The test of line 108 decides whether the marker occurs in some
    letter case. *)
Lemma mentions_marker_iff (text : string) :
  Spec.mentions "[error]" text <-> isin "[error]" (lower text) = true.
Proof.
  split.
  - intros (pre & m & post & -> & Hm).
    rewrite <- (lower_caseless _ _ marker_letters) in Hm.
    apply String.eqb_eq in Hm.
    rewrite !lower_append, Hm. apply isin_append.
  - intros H. apply isin_inv in H as (a & b & H).
    apply lower_split in H as (pre & rest & -> & _ & H).
    apply lower_split in H as (m & post & -> & Hm & _).
    exists pre, m, post. split; [reflexivity|].
    rewrite <- (lower_caseless _ _ marker_letters).
    now apply String.eqb_eq.
Qed.

End Caseless.

(* ===================================================================== *)
(** ** The channel *)
(* ===================================================================== *)

Section Channel.

Import Pexpect.

(** A read ends on a pattern only at a prompt that the pattern list names. *)
Lemma scan_hit (pats : list pattern) (evs : list event) (acc : string)
      (i : nat) (seen : string) (rest : list event) :
  scan pats acc evs = (Hit i, seen, rest) ->
  exists regex, index_of (Re regex) pats = Some i.
Proof.
  revert acc; induction evs as [|e evs IH]; intros acc H; simpl in H.
  - discriminate.
  - destruct e as [text regex|text|text|msg]; try discriminate.
    destruct (index_of (Re regex) pats) as [j|] eqn:E.
    + injection H as <- _ _. now exists regex.
    + exact (IH _ H).
Qed.

(** Waiting for end of stream alone never ends on a prompt. *)
Lemma scan_eof_only (evs : list event) (acc : string) (i : nat)
      (seen : string) (rest : list event) :
  scan [Sentinel EOF] acc evs <> (Hit i, seen, rest).
Proof.
  intros H. apply scan_hit in H as [regex H]. discriminate.
Qed.

(** The startup read ends on one of the two prompt patterns. *)
Lemma scan_startup_hit (evs : list event) (acc : string) (i : nat)
      (seen : string) (rest : list event) :
  scan SBTProcess.startup_patterns acc evs = (Hit i, seen, rest) -> i < 2.
Proof.
  intros H. apply scan_hit in H as [regex H].
  unfold SBTProcess.startup_patterns in H. cbn [index_of pattern_eqb] in H.
  destruct (String.eqb regex SBTProcess.standard_prompt); [injection H as <-; lia|].
  destruct (String.eqb regex SBTProcess.simple_prompt); [injection H as <-; lia|].
  discriminate.
Qed.

End Channel.

(* ===================================================================== *)
(** ** The methods of a session, case by case *)
(* ===================================================================== *)

Section Session.

Import Pexpect OS SBTProcess.

(** [execute_command] on a session that is not running. *)
Lemma execute_command_stopped (self : t) (command : string) (timeout : Z) :
  not_running self = true ->
  execute_command command timeout self
  = (Raise (RuntimeError "SBT process is not running"), self).
Proof.
  intros H. unfold execute_command, bind, gets. now rewrite H.
Qed.

(** [execute_command] on a session whose child is alive, by the way the
    read ends. *)
Lemma execute_command_running (self : t) (c : spawn) (command : string) (timeout : Z) :
  process self = Some c -> isalive c = true ->
  execute_command command timeout self =
    match scan [Re standard_prompt] (buffer c) (feed c) with
    | (Hit _, seen, rest) =>
        (Ok (clean_output command seen, exit_code_of (clean_output command seen)),
         set_process (Some (Spec.after_read c command timeout true seen "" rest)) self)
    | (Miss TIMEOUT, seen, rest) =>
        (Ok ("Command timed out after " ++ Str.of_Z timeout ++ " seconds", 1%Z),
         set_process (Some (Spec.after_read c command timeout true seen seen rest)) self)
    | (Miss EOF, seen, rest) =>
        (Ok ("SBT process terminated unexpectedly", 1%Z),
         set_process (Some (Spec.after_read c command timeout false seen "" rest)) self)
    | (Crash msg, _, rest) =>
        (Ok ("Error executing command: " ++ msg, 1%Z),
         set_process
           (Some (Spec.after_read c command timeout true (before c) (buffer c) rest)) self)
    end.
Proof.
  intros Hp Ha. destruct self as [root_ p]. simpl in Hp. subst p.
  destruct c as [pid_ alive_ before_ buffer_ feed_ trace_].
  unfold isalive in Ha. simpl in Ha. subst alive_.
  unfold execute_command, bind, gets, not_running, try_except, on_process,
    sendline, expect, logged, Spec.after_read, set_process, isalive, ret.
  cbn.
  destruct (scan [Re standard_prompt] buffer_ feed_) as [[r seen] rest].
  destruct r as [i | [] | msg]; cbn; rewrite <- ?app_assoc; reflexivity.
Qed.

(** [SBTProcess(root)], by what the file system, the launcher and the
    startup read do. *)
Lemma new_cases (root_ : string) (w : World) :
  new root_ w =
    match fs w root_ with
    | Denied msg => (Raise (OtherError msg), w)
    | Absent =>
        (Raise (ValueError ("Project root " ++ root_ ++ " does not exist.")), w)
    | Present =>
        match fs w (joinpath root_ "build.sbt") with
        | Denied msg => (Raise (OtherError msg), w)
        | Absent =>
            (Raise (ValueError ("No build.sbt found in " ++ root_
                                ++ ". Not a valid SBT project.")), w)
        | Present =>
            match launcher w (spawned w) with
            | Fails msg =>
                (Raise (RuntimeError ("Failed to start SBT process: " ++ msg)),
                 Spec.one_more_spawn w)
            | Starts evs =>
                match scan startup_patterns "" evs with
                | (Hit i, seen, rest) =>
                    if (3 <=? i)%nat
                    then (Raise (RuntimeError
                                   ("Failed to start SBT process: "
                                    ++ "Failed to match prompt. Index: "
                                    ++ Str.of_nat i)),
                          Spec.one_more_spawn w)
                    else (Ok (Spec.started root_ (spawned w) seen "" rest),
                          Spec.one_more_spawn w)
                | (Miss TIMEOUT, seen, rest) =>
                    (Ok (Spec.started root_ (spawned w) seen seen rest),
                     Spec.one_more_spawn w)
                | (Miss EOF, seen, rest) =>
                    (Raise (RuntimeError
                              ("Failed to start SBT process: "
                               ++ "Failed to match prompt. Index: 3")),
                     Spec.one_more_spawn w)
                | (Crash msg, _, rest) =>
                    (Raise (RuntimeError ("Failed to start SBT process: " ++ msg)),
                     Spec.one_more_spawn w)
                end
            end
        end
    end.
Proof.
  unfold new, __init__, _start_process, bind, gets, modify, in_world, in_self,
    zoom, exists_, try_except, raise, ret, launch, on_process, expect, logged,
    set_process, Spec.one_more_spawn, Spec.started.
  cbn.
  destruct (fs w root_); cbn; try reflexivity.
  destruct (fs w (joinpath root_ "build.sbt")); cbn; try reflexivity.
  destruct (launcher w (spawned w)) as [evs|msg]; cbn; try reflexivity.
  destruct (scan startup_patterns "" evs) as [[r seen] rest].
  destruct r as [i | [] | msg]; cbn; try reflexivity.
  destruct i as [|[|[|i]]]; reflexivity.
Qed.

(** [close] on a session that is not running does nothing. *)
Lemma close_stopped (self : t) :
  not_running self = true -> close self = (Ok tt, self).
Proof.
  unfold not_running, close, bind, gets.
  destruct (process self) as [c|]; [|reflexivity].
  now destruct (isalive c).
Qed.

End Session.

(* ===================================================================== *)
(** ** Stream end during a command *)
(* ===================================================================== *)

Section Claims_execute.

Import Pexpect SBTProcess.

(** Once a session is not running, any series of commands is refused and
    the session, its channel included, stays as it is. *)
Lemma execute_all_stopped (calls : list (string * Z)) (self : t) :
  not_running self = true ->
  Spec.execute_all calls self
  = (map (fun _ => Raise (RuntimeError "SBT process is not running")) calls, self).
Proof.
  intros H. induction calls as [|[command timeout] more IH]; [reflexivity|].
  cbn [Spec.execute_all map].
  now rewrite execute_command_stopped, IH.
Qed.

(** C2. If the child closes its output stream while a command waits for
    the prompt, the call reports "SBT process terminated unexpectedly"
    with status 1, the session is no longer running, and every later
    [execute_command] on it raises [RuntimeError "SBT process is not
    running"] and leaves the session and the record of channel operations
    unchanged: nothing more is sent. *)
Theorem C2_stream_end_fails_session
        (self : t) (c : spawn) (command : string) (timeout : Z)
        (seen : string) (rest : list event) :
  process self = Some c ->
  isalive c = true ->
  scan [Re standard_prompt] (buffer c) (feed c) = (Miss EOF, seen, rest) ->
  exists self',
    execute_command command timeout self
    = (Ok ("SBT process terminated unexpectedly", 1%Z), self')
    /\ not_running self' = true
    /\ Spec.channel_trace self'
       = (Spec.channel_trace self
          ++ [Sendline command; Expect [Re standard_prompt] timeout])%list
    /\ forall calls,
         Spec.execute_all calls self'
         = (map (fun _ => Raise (RuntimeError "SBT process is not running")) calls,
            self').
Proof.
  intros Hp Ha Hs.
  rewrite (execute_command_running self c command timeout Hp Ha), Hs.
  eexists. split; [reflexivity|].
  assert (Hn : not_running
                 (set_process
                    (Some (Spec.after_read c command timeout false seen "" rest)) self)
               = true) by reflexivity.
  split; [exact Hn|]. split.
  - unfold Spec.channel_trace. rewrite Hp. reflexivity.
  - intros calls. now apply execute_all_stopped.
Qed.

Lemma C2_stream_end_fails_session_witness :
  exists self',
    execute_command "compile" 300 (Scenario.session [Hangup "[info] shutting down"])
    = (Ok ("SBT process terminated unexpectedly", 1%Z), self')
    /\ not_running self' = true
    /\ Spec.channel_trace self'
       = (Spec.channel_trace (Scenario.session [Hangup "[info] shutting down"])
          ++ [Sendline "compile"; Expect [Re standard_prompt] 300])%list
    /\ forall calls,
         Spec.execute_all calls self'
         = (map (fun _ => Raise (RuntimeError "SBT process is not running")) calls,
            self').
Proof.
  exact (C2_stream_end_fails_session
           (Scenario.session [Hangup "[info] shutting down"])
           (Scenario.child [Hangup "[info] shutting down"])
           "compile" 300 "[info] shutting down" []
           eq_refl eq_refl eq_refl).
Defined.

(** C5. If the read of a command hits its deadline, the call returns
    "Command timed out after <timeout> seconds" with status 1; the child
    is still alive and was sent the command and nothing else (it is not
    terminated); and the next [execute_command] on the same session is
    accepted: it returns a result and its command is sent to the same
    child. *)
Theorem C5_timeout_keeps_session
        (self : t) (c : spawn) (command : string) (timeout : Z)
        (seen : string) (rest : list event) :
  process self = Some c ->
  isalive c = true ->
  scan [Re standard_prompt] (buffer c) (feed c) = (Miss TIMEOUT, seen, rest) ->
  exists self' c',
    execute_command command timeout self
    = (Ok ("Command timed out after " ++ Str.of_Z timeout ++ " seconds", 1%Z), self')
    /\ Str.isin (Str.of_Z timeout)
                ("Command timed out after " ++ Str.of_Z timeout ++ " seconds") = true
    /\ process self' = Some c'
    /\ pid c' = pid c
    /\ isalive c' = true
    /\ not_running self' = false
    /\ trace c' = (trace c ++ [Sendline command;
                               Expect [Re standard_prompt] timeout])%list
    /\ forall command2 timeout2,
         exists result self2 c2,
           execute_command command2 timeout2 self' = (Ok result, self2)
           /\ process self2 = Some c2
           /\ pid c2 = pid c
           /\ trace c2 = (trace c' ++ [Sendline command2;
                                       Expect [Re standard_prompt] timeout2])%list.
Proof.
  intros Hp Ha Hs.
  rewrite (execute_command_running self c command timeout Hp Ha), Hs.
  exists (set_process (Some (Spec.after_read c command timeout true seen seen rest)) self),
         (Spec.after_read c command timeout true seen seen rest).
  split; [reflexivity|]. split; [apply isin_append|].
  repeat (split; [reflexivity|]).
  intros command2 timeout2.
  rewrite (execute_command_running _ (Spec.after_read c command timeout true seen seen rest))
    by reflexivity.
  clear Hs.
  destruct (scan _ _ _) as [[r seen2] rest2].
  destruct r as [i|[]|msg]; do 3 eexists; repeat split; reflexivity.
Qed.

Lemma C5_timeout_keeps_session_witness :
  exists self' c',
    execute_command "compile" 300 (Scenario.session [Quiet "[info] compiling"])
    = (Ok ("Command timed out after " ++ Str.of_Z 300 ++ " seconds", 1%Z), self')
    /\ Str.isin (Str.of_Z 300)
                ("Command timed out after " ++ Str.of_Z 300 ++ " seconds") = true
    /\ process self' = Some c'
    /\ pid c' = 0
    /\ isalive c' = true
    /\ not_running self' = false
    /\ trace c' = [Expect startup_patterns 120; Sendline "compile";
                   Expect [Re standard_prompt] 300]
    /\ forall command2 timeout2,
         exists result self2 c2,
           execute_command command2 timeout2 self' = (Ok result, self2)
           /\ process self2 = Some c2
           /\ pid c2 = 0
           /\ trace c2 = (trace c' ++ [Sendline command2;
                                       Expect [Re standard_prompt] timeout2])%list.
Proof.
  exact (C5_timeout_keeps_session
           (Scenario.session [Quiet "[info] compiling"])
           (Scenario.child [Quiet "[info] compiling"])
           "compile" 300 "[info] compiling" []
           eq_refl eq_refl eq_refl).
Defined.

End Claims_execute.

(* ===================================================================== *)
(** ** Post-processing of the output of a command *)
(* ===================================================================== *)

Section Claims_output.

Import Pexpect SBTProcess.

(** The status as a function of the cleaned output. *)
Lemma exit_code_of_marker (output : string) :
  (exit_code_of output = 1%Z <-> Spec.mentions "[error]" output)
  /\ (exit_code_of output = 0%Z <-> ~ Spec.mentions "[error]" output).
Proof.
  unfold exit_code_of. rewrite mentions_marker_iff.
  destruct (Str.isin "[error]" (Str.lower output)); split; split;
    intros H; try reflexivity; try discriminate; try (now elim H).
Qed.

(** C3. When a command's read ends at the prompt, the returned status is
    decided by the cleaned output alone: it is 1 exactly when that text
    contains the marker "[error]" written in some letter case, and 0
    exactly when it does not. *)
Theorem C3_error_marker_decides_status
        (self : t) (c : spawn) (command : string) (timeout : Z)
        (i : nat) (seen : string) (rest : list event) :
  process self = Some c ->
  isalive c = true ->
  scan [Re standard_prompt] (buffer c) (feed c) = (Hit i, seen, rest) ->
  exists output status self',
    execute_command command timeout self = (Ok (output, status), self')
    /\ output = clean_output command seen
    /\ (status = 1%Z <-> Spec.mentions "[error]" output)
    /\ (status = 0%Z <-> ~ Spec.mentions "[error]" output).
Proof.
  intros Hp Ha Hs.
  rewrite (execute_command_running self c command timeout Hp Ha), Hs.
  do 3 eexists. split; [reflexivity|]. split; [reflexivity|].
  apply exit_code_of_marker.
Qed.

Lemma C3_error_marker_decides_status_witness :
  exists output status self',
    execute_command "compile" 300
      (Scenario.session [Prompt "[ERROR] bad" standard_prompt])
    = (Ok (output, status), self')
    /\ output = clean_output "compile" "[ERROR] bad"
    /\ (status = 1%Z <-> Spec.mentions "[error]" output)
    /\ (status = 0%Z <-> ~ Spec.mentions "[error]" output).
Proof.
  exact (C3_error_marker_decides_status
           (Scenario.session [Prompt "[ERROR] bad" standard_prompt])
           (Scenario.child [Prompt "[ERROR] bad" standard_prompt])
           "compile" 300 0 "[ERROR] bad" []
           eq_refl eq_refl eq_refl).
Defined.

(** The three outputs named by the specification. *)
Example status_of_named_outputs :
  exit_code_of (clean_output "compile" "[ERROR] bad") = 1%Z
  /\ exit_code_of (clean_output "compile" "[error] bad") = 1%Z
  /\ exit_code_of (clean_output "compile" "ok, done") = 0%Z.
Proof. repeat split. Qed.

(** The cleaned output in terms of the first line of the raw output and
    of what follows it. *)
Lemma clean_output_cases (command raw : string) :
  clean_output command raw
  = Str.strip (if Str.isin command (Spec.first_line raw)
               then Spec.after_first_line raw else raw).
Proof.
  unfold clean_output.
  destruct (split_lines_cons raw) as (rest & E & J).
  rewrite E.
  destruct (Str.isin command (Spec.first_line raw)).
  - now rewrite J.
  - now rewrite <- E, join_split_lines.
Qed.

(** C4, as the code has it. The first line of the raw output is dropped
    exactly when it contains the command text at any position; what is
    returned is the rest, or else the whole raw output, stripped of
    leading and trailing white space. *)
Theorem C4_first_line_dropped_when_it_contains_command (command raw : string) :
  clean_output command raw
  = Str.strip (if Str.isin command (Spec.first_line raw)
               then Spec.after_first_line raw else raw).
Proof. apply clean_output_cases. Qed.

(** C4, as stated, fails: an echo that follows an empty first line is
    kept, and stripping makes it the leading line of the result. *)
Lemma C4_echo_can_lead_the_output :
  fst (execute_command "run" 300
         (Scenario.session
            [Prompt (Str.nl ++ "run" ++ Str.nl ++ "ok" ++ Str.nl) standard_prompt]))
  = Ok ("run" ++ Str.nl ++ "ok", 0%Z)
  /\ Spec.first_line ("run" ++ Str.nl ++ "ok") = "run"
  /\ ~ (forall command raw, Spec.first_line (clean_output command raw) <> command).
Proof.
  split; [reflexivity|]. split; [reflexivity|].
  intros H.
  exact (H "run" (Str.nl ++ "run" ++ Str.nl ++ "ok" ++ Str.nl) eq_refl).
Qed.

End Claims_output.

(* ===================================================================== *)
(** ** Starting a session *)
(* ===================================================================== *)

Section Claims_startup.

Import Pexpect OS.

(** [ensure_sbt_running] on a facade that holds no session. *)
Lemma ensure_sbt_running_empty (w : World) (p : DottyProject.t) :
  DottyProject.sbt_process p = None ->
  DottyProject.ensure_sbt_running (w, p)
  = match SBTProcess.new (DottyProject.root p) w with
    | (Ok s, w') => (Ok tt, (w', DottyProject.set_sbt_process (Some s) p))
    | (Raise e, w') => (Raise e, (w', p))
    end.
Proof.
  intros H.
  unfold DottyProject.ensure_sbt_running, bind, gets, modify,
    SBTProcess.in_world, zoom.
  cbn. rewrite H. cbn.
  destruct (SBTProcess.new (DottyProject.root p) w) as [[s|e] w']; reflexivity.
Qed.

(** [ensure_sbt_running] on a facade that holds a session, whatever the
    state of that session. *)
Lemma ensure_sbt_running_held (w : World) (p : DottyProject.t) (s : SBTProcess.t) :
  DottyProject.sbt_process p = Some s ->
  DottyProject.ensure_sbt_running (w, p) = (Ok tt, (w, p)).
Proof.
  intros H. unfold DottyProject.ensure_sbt_running, bind, gets. cbn.
  now rewrite H.
Qed.

(** A session that [SBTProcess(root)] returns comes from one launch in a
    valid project. *)
Lemma new_returns (root_ : string) (w w' : World) (s : SBTProcess.t) :
  SBTProcess.new root_ w = (Ok s, w') ->
  w' = Spec.one_more_spawn w
  /\ fs w root_ = Present
  /\ fs w (joinpath root_ "build.sbt") = Present.
Proof.
  rewrite new_cases.
  destruct (fs w root_); try discriminate.
  destruct (fs w (joinpath root_ "build.sbt")); try discriminate.
  destruct (launcher w (spawned w)) as [evs|msg]; try discriminate.
  destruct (scan SBTProcess.startup_patterns "" evs) as [[r seen] rest].
  destruct r as [i|[]|msg]; try discriminate.
  - destruct (3 <=? i)%nat; [discriminate|]. intros [= _ <-]. now repeat split.
  - intros [= _ <-]. now repeat split.
Qed.

(** C6. When the working root does not exist, or exists without a
    [build.sbt], creating the session raises a [ValueError] whose message
    contains the root path, and the world is left exactly as it was: the
    launcher was not called, so the count of spawned children is
    unchanged. The same holds of [ensure_sbt_running] on a new facade,
    which is left holding no session. *)
Theorem C6_missing_marker_no_spawn (w : World) (root_ : string) :
  fs w root_ = Absent
  \/ (fs w root_ = Present /\ fs w (joinpath root_ "build.sbt") = Absent) ->
  exists msg,
    SBTProcess.new root_ w = (Raise (ValueError msg), w)
    /\ Str.isin root_ msg = true
    /\ DottyProject.ensure_sbt_running (w, DottyProject.__init__ root_)
       = (Raise (ValueError msg), (w, DottyProject.__init__ root_))
    /\ spawned (snd (SBTProcess.new root_ w)) = spawned w.
Proof.
  intros H.
  rewrite ensure_sbt_running_empty by reflexivity.
  cbn [DottyProject.root DottyProject.__init__].
  rewrite new_cases.
  destruct H as [H | [H1 H2]].
  - rewrite H. eexists. split; [reflexivity|]. split; [|now split].
    apply (isin_append root_ "Project root " " does not exist.").
  - rewrite H1, H2. eexists. split; [reflexivity|]. split; [|now split].
    apply (isin_append root_ "No build.sbt found in " ". Not a valid SBT project.").
Qed.

Lemma C6_missing_marker_no_spawn_witness :
  exists msg,
    SBTProcess.new "/q" (Scenario.world Scenario.healthy)
    = (Raise (ValueError msg), Scenario.world Scenario.healthy)
    /\ Str.isin "/q" msg = true
    /\ DottyProject.ensure_sbt_running
         (Scenario.world Scenario.healthy, DottyProject.__init__ "/q")
       = (Raise (ValueError msg),
          (Scenario.world Scenario.healthy, DottyProject.__init__ "/q"))
    /\ spawned (snd (SBTProcess.new "/q" (Scenario.world Scenario.healthy))) = 0.
Proof.
  exact (C6_missing_marker_no_spawn (Scenario.world Scenario.healthy) "/q"
           (or_introl eq_refl)).
Defined.

(** C8. In a valid project, when [ensure_sbt_running] has returned, a
    second call returns too and changes nothing: the facade holds the
    same session, with the same child, and the world, its count of
    spawned children included, is as the first call left it. The first
    call launched one child if the facade held no session, and none
    otherwise. *)
Theorem C8_ensure_ready_twice (w w1 : World) (p p1 : DottyProject.t) :
  fs w (DottyProject.root p) = Present ->
  fs w (joinpath (DottyProject.root p) "build.sbt") = Present ->
  DottyProject.ensure_sbt_running (w, p) = (Ok tt, (w1, p1)) ->
  exists s,
    DottyProject.sbt_process p1 = Some s
    /\ DottyProject.ensure_sbt_running (w1, p1) = (Ok tt, (w1, p1))
    /\ spawned w1 = match DottyProject.sbt_process p with
                    | None => S (spawned w)
                    | Some _ => spawned w
                    end.
Proof.
  intros _ _ H.
  destruct (DottyProject.sbt_process p) as [s|] eqn:Hp.
  - rewrite (ensure_sbt_running_held w p s Hp) in H.
    injection H as <- <-. exists s.
    rewrite (ensure_sbt_running_held w p s Hp). now repeat split.
  - rewrite (ensure_sbt_running_empty w p Hp) in H.
    destruct (SBTProcess.new (DottyProject.root p) w) as [[s|e] w'] eqn:Hn;
      [|discriminate].
    injection H as <- <-. exists s.
    rewrite (ensure_sbt_running_held
               w' (DottyProject.set_sbt_process (Some s) p) s eq_refl).
    apply new_returns in Hn as (-> & _ & _). now repeat split.
Qed.

Lemma C8_ensure_ready_twice_witness :
  exists s,
    DottyProject.sbt_process (snd Scenario.ready) = Some s
    /\ DottyProject.ensure_sbt_running Scenario.ready = (Ok tt, Scenario.ready)
    /\ spawned (fst Scenario.ready) = 1.
Proof.
  exact (C8_ensure_ready_twice
           (Scenario.world Scenario.healthy) (fst Scenario.ready)
           (DottyProject.__init__ "/p") (snd Scenario.ready)
           eq_refl eq_refl eq_refl).
Defined.

End Claims_startup.

(* ===================================================================== *)
(** ** Startup that does not reach a prompt *)
(* ===================================================================== *)

Section Claims_handshake.

Import Pexpect OS.

(** C7, at the inputs where the code departs from it. A startup read that
    hits its deadline is answered with index 2, which the test
    [index >= 3] lets through: [SBTProcess(root)] returns a session as if
    the prompt had been seen, and the text read so far is reported to
    nobody. A startup read that meets end of stream raises a
    [RuntimeError] whose message is "Failed to start SBT process: Failed
    to match prompt. Index: 3", without the text read so far. *)
Theorem C7_startup_failure_at_code :
  SBTProcess.new "/p" (Scenario.world [Quiet "[info] loading project"])
  = (Ok (Spec.started "/p" 0 "[info] loading project" "[info] loading project" []),
     Spec.one_more_spawn (Scenario.world [Quiet "[info] loading project"]))
  /\ SBTProcess.not_running
       (Spec.started "/p" 0 "[info] loading project" "[info] loading project" [])
     = false
  /\ SBTProcess.new "/p" (Scenario.world [Hangup "[error] java not found"])
     = (Raise (RuntimeError
                 "Failed to start SBT process: Failed to match prompt. Index: 3"),
        Spec.one_more_spawn (Scenario.world [Hangup "[error] java not found"]))
  /\ Str.isin "[error] java not found"
              "Failed to start SBT process: Failed to match prompt. Index: 3"
     = false.
Proof. repeat split. Qed.

(** The handlers of lines 58-71, which would carry the text read so far,
    are never entered: whatever the world does, a [RuntimeError] of
    [SBTProcess(root)] begins with "Failed to start SBT process: ", as
    the last handler writes it. *)
Lemma startup_handlers_unreached (root_ : string) (w w' : World) (m : string) :
  SBTProcess.new root_ w = (Raise (RuntimeError m), w') ->
  prefix "Failed to start SBT process: " m = true.
Proof.
  rewrite new_cases.
  destruct (fs w root_); try discriminate.
  destruct (fs w (joinpath root_ "build.sbt")); try discriminate.
  destruct (launcher w (spawned w)) as [evs|msg];
    [|intros [= <- _]; apply (prefix_append "Failed to start SBT process: ")].
  destruct (scan SBTProcess.startup_patterns "" evs) as [[r seen] rest].
  destruct r as [i|[]|msg]; try discriminate;
    try (intros [= <- _]; apply (prefix_append "Failed to start SBT process: ")).
  destruct (3 <=? i)%nat; [intros [= <- _]; apply (prefix_append "Failed to start SBT process: ") | discriminate].
Qed.

End Claims_handshake.

(* ===================================================================== *)
(** ** Closing *)
(* ===================================================================== *)

Section Claims_close.

Import Pexpect OS SBTProcess.

(** C9. [close] never raises. On a running session it first sends "exit"
    and waits, with a bound of 10 seconds, for end of stream; if that wait
    meets end of stream nothing more is done, and otherwise the child is
    terminated by force. On a session that is not running it does
    nothing. Afterwards the session is not running, and a second [close]
    returns without raising and changes nothing. *)
Theorem C9_close_graceful_then_forced (self : t) :
  exists self1,
    close self = (Ok tt, self1)
    /\ not_running self1 = true
    /\ Spec.channel_trace self1
       = (Spec.channel_trace self
          ++ if not_running self then []
             else [Sendline "exit"; Expect [Sentinel EOF] 10]
                  ++ if Spec.exits_on_request self then [] else [Terminate true])%list
    /\ close self1 = (Ok tt, self1).
Proof.
  destruct self as [root_ [c|]].
  2:{ exists {| root := root_; process := None |}. now repeat split. }
  destruct c as [pid_ [] before_ buffer_ feed_ trace_].
  2:{ eexists. split; [reflexivity|]. split; [reflexivity|].
      split; [|reflexivity].
      cbn. now rewrite app_nil_r. }
  unfold close, bind, gets, try_except, on_process, sendline, expect, terminate,
    logged, set_process, isalive, ret, Spec.exits_on_request, Spec.channel_trace,
    not_running.
  cbn.
  destruct (scan [Sentinel EOF] buffer_ feed_) as [[r seen] rest] eqn:Hs.
  destruct r as [i|[]|msg]; cbn.
  - now apply scan_eof_only in Hs.
  - eexists. split; [reflexivity|]. cbn. rewrite <- !app_assoc. now repeat split.
  - eexists. split; [reflexivity|]. cbn. rewrite <- !app_assoc. now repeat split.
  - eexists. split; [reflexivity|]. cbn. rewrite <- !app_assoc. now repeat split.
Qed.

(** Both ways of closing a running session, and the second call. *)
Example close_twice_on_obedient_and_stubborn_child :
  (let s1 := snd (close (Scenario.session [Hangup ""])) in
   Spec.channel_trace s1
   = [Expect startup_patterns 120; Sendline "exit"; Expect [Sentinel EOF] 10]
   /\ close s1 = (Ok tt, s1))
  /\ (let s1 := snd (close (Scenario.session [Quiet ""])) in
      Spec.channel_trace s1
      = [Expect startup_patterns 120; Sendline "exit"; Expect [Sentinel EOF] 10;
         Terminate true]
      /\ close s1 = (Ok tt, s1)).
Proof. repeat split. Qed.

End Claims_close.

(* ===================================================================== *)
(** ** The facade *)
(* ===================================================================== *)

Section Claims_facade.

Import Pexpect OS.

(** C1, at the inputs where the code departs from it. After
    [DottyProject.close] the facade still holds the session it closed;
    and after the child of its session hung up during a command, it still
    holds that session. In both cases the next [ensure_sbt_running] does
    nothing, no second child is launched, and the next [scalac] is
    refused by the old session. *)
Theorem C1_dead_session_is_kept :
  (let st1 := snd (DottyProject.close (Scenario.facade [Hangup ""])) in
   (exists s, DottyProject.sbt_process (snd st1) = Some s
              /\ SBTProcess.not_running s = true)
   /\ DottyProject.ensure_sbt_running st1 = (Ok tt, st1)
   /\ spawned (fst st1) = 1
   /\ fst (DottyProject.scalac "A.scala" [] st1)
      = Ok "Error: SBT process is not running"
   /\ spawned (fst (snd (DottyProject.scalac "A.scala" [] st1))) = 1)
  /\
  (let st1 := snd (DottyProject.scalac "A.scala" []
                     (Scenario.facade [Hangup "[error] crashed"])) in
   (exists s, DottyProject.sbt_process (snd st1) = Some s
              /\ SBTProcess.not_running s = true)
   /\ DottyProject.ensure_sbt_running st1 = (Ok tt, st1)
   /\ fst (DottyProject.scalac "A.scala" [] st1)
      = Ok "Error: SBT process is not running"
   /\ spawned (fst (snd (DottyProject.scalac "A.scala" [] st1))) = 1).
Proof.
  split.
  - cbv zeta. split; [eexists; split; reflexivity|]. now repeat split.
  - cbv zeta. split; [eexists; split; reflexivity|]. now repeat split.
Qed.

(** [DottyProject.close] keeps the reference it is given, for every
    facade and world. *)
Lemma close_keeps_reference (w : World) (p : DottyProject.t) (s : SBTProcess.t) :
  DottyProject.sbt_process p = Some s ->
  exists s', DottyProject.sbt_process (snd (snd (DottyProject.close (w, p)))) = Some s'.
Proof.
  intros H.
  unfold DottyProject.close, DottyProject.on_sbt_process, bind, gets.
  cbn -[SBTProcess.close]. rewrite H. cbn -[SBTProcess.close]. rewrite H.
  destruct (SBTProcess.close s) as [r s']. exists s'. reflexivity.
Qed.

(** C10. [scalac] and [testCompilation] always return a string: a
    [ValueError] or [RuntimeError] raised inside their [try] block, by the
    startup of the session or by the command, becomes "Error: " followed
    by its message, any other exception becomes "Unexpected error: "
    followed by its message, and a returned value is passed on. *)
Theorem C10_facade_total
        (st : World * DottyProject.t) (file : string) (options : list string)
        (pattern : string) :
  (exists s st',
      DottyProject.scalac file options st = (Ok s, st')
      /\ s = match fst (DottyProject.scalac_body file options st) with
             | Ok s0 => s0
             | Raise (ValueError m) => "Error: " ++ m
             | Raise (RuntimeError m) => "Error: " ++ m
             | Raise e => "Unexpected error: " ++ exn_str e
             end)
  /\ (exists s st',
         DottyProject.testCompilation pattern st = (Ok s, st')
         /\ s = match fst (DottyProject.testCompilation_body pattern st) with
                | Ok s0 => s0
                | Raise (ValueError m) => "Error: " ++ m
                | Raise (RuntimeError m) => "Error: " ++ m
                | Raise e => "Unexpected error: " ++ exn_str e
                end).
Proof.
  unfold DottyProject.scalac, DottyProject.testCompilation, try_except, ret.
  split.
  - destruct (DottyProject.scalac_body file options st) as [[s|e] st'];
      [|destruct e]; do 2 eexists; split; reflexivity.
  - destruct (DottyProject.testCompilation_body pattern st) as [[s|e] st'];
      [|destruct e]; do 2 eexists; split; reflexivity.
Qed.

(** The three kinds of result at the public interface. *)
Example scalac_results :
  fst (DottyProject.scalac "Foo.scala" []
         (Scenario.world Scenario.healthy, DottyProject.__init__ "/p"))
  = Ok ("Successfully compiled Foo.scala" ++ Str.nl ++ Str.nl ++ "Output:"
        ++ Str.nl ++ "Successfully compiled Foo.scala")
  /\ fst (DottyProject.scalac "Foo.scala" []
            (Scenario.world Scenario.healthy, DottyProject.__init__ "/q"))
     = Ok "Error: Project root /q does not exist."
  /\ fst (DottyProject.scalac "Foo.scala" []
            ({| fs := fun _ => Denied "[Errno 13] Permission denied";
                launcher := fun _ => Fails ""; spawned := 0 |},
             DottyProject.__init__ "/p"))
     = Ok "Unexpected error: [Errno 13] Permission denied".
Proof. repeat split. Qed.

End Claims_facade.

(* ===================================================================== *)
(** ** Further properties of a session *)
(* ===================================================================== *)

Section More_session.

Import Pexpect OS SBTProcess.

Lemma string_app_assoc (a b c : string) : (a ++ b) ++ c = a ++ b ++ c.
Proof. induction a as [|x a IH]; cbn; [reflexivity | now rewrite IH]. Qed.



(** X1. In a valid project whose child shows one of the two prompts,
    [SBTProcess(root)] returns a session that is running; one child was
    launched, numbered by the count of launches before, and the only
    operation performed on it is the startup read with its timeout of 120
    seconds: nothing was sent. *)
Theorem startup_reaches_prompt
        (w : World) (root_ : string) (evs : list event)
        (i : nat) (seen : string) (rest : list event) :
  fs w root_ = Present ->
  fs w (joinpath root_ "build.sbt") = Present ->
  launcher w (spawned w) = Starts evs ->
  scan startup_patterns "" evs = (Hit i, seen, rest) ->
  exists self c,
    new root_ w = (Ok self, Spec.one_more_spawn w)
    /\ root self = root_
    /\ process self = Some c
    /\ not_running self = false
    /\ pid c = spawned w
    /\ before c = seen
    /\ trace c = [Expect startup_patterns 120].
Proof.
  intros H1 H2 H3 H4.
  rewrite new_cases, H1, H2, H3, H4.
  apply scan_startup_hit in H4.
  destruct i as [|[|i]]; [| |lia]; cbn; do 2 eexists; repeat split.
Qed.

Lemma startup_reaches_prompt_witness :
  exists self c,
    new "/p" (Scenario.world Scenario.healthy)
    = (Ok self, Spec.one_more_spawn (Scenario.world Scenario.healthy))
    /\ root self = "/p"
    /\ process self = Some c
    /\ not_running self = false
    /\ pid c = 0
    /\ before c = "[info] welcome to sbt"
    /\ trace c = [Expect startup_patterns 120].
Proof.
  exact (startup_reaches_prompt
           (Scenario.world Scenario.healthy) "/p" Scenario.healthy
           1 "[info] welcome to sbt" (tl Scenario.healthy)
           eq_refl eq_refl eq_refl eq_refl).
Defined.

(** X2. The errors of [SBTProcess(root)] are of three kinds. A
    [ValueError], or an error of the file system probe itself, is raised
    before any launch and leaves the world as it was. Every failure after
    that is a [RuntimeError] whose message begins with "Failed to start SBT
    process: ", raised after exactly one launch. No [pexpect] exception
    leaves the constructor. *)
Theorem startup_errors_classified (root_ : string) (w w' : World) (e : exn) :
  new root_ w = (Raise e, w') ->
  (exists m, e = ValueError m /\ w' = w)
  \/ (exists m, e = OtherError m /\ w' = w
                /\ (fs w root_ = Denied m
                    \/ fs w (joinpath root_ "build.sbt") = Denied m))
  \/ (exists m, e = RuntimeError m /\ w' = Spec.one_more_spawn w
                /\ prefix "Failed to start SBT process: " m = true).
Proof.
  intros H. rewrite new_cases in H.
  destruct (fs w root_) as [| |m] eqn:E1.
  - destruct (fs w (joinpath root_ "build.sbt")) as [| |m] eqn:E2.
    + right; right.
      assert (P : forall t, prefix "Failed to start SBT process: "
                                   ("Failed to start SBT process: " ++ t) = true)
        by (intros t; apply prefix_append).
      destruct (launcher w (spawned w)) as [evs|msg].
      * destruct (scan startup_patterns "" evs) as [[r seen] rest].
        destruct r as [i|[]|msg]; try discriminate.
        -- destruct (3 <=? i)%nat; [|discriminate].
           injection H as <- <-. eexists. split; [reflexivity|].
           split; [reflexivity|]. apply P.
        -- injection H as <- <-. eexists. split; [reflexivity|].
           split; [reflexivity|]. apply P.
        -- injection H as <- <-. eexists. split; [reflexivity|].
           split; [reflexivity|]. apply P.
      * injection H as <- <-. eexists. split; [reflexivity|].
        split; [reflexivity|]. apply P.
    + injection H as <- <-. left. eexists. now split.
    + injection H as <- <-. right; left. exists m. repeat split. now right.
  - injection H as <- <-. left. eexists. now split.
  - injection H as <- <-. right; left. exists m. repeat split. now left.
Qed.

Lemma startup_errors_classified_witness :
  (exists m, RuntimeError "Failed to start SBT process: Failed to match prompt. Index: 3"
             = ValueError m
             /\ Spec.one_more_spawn (Scenario.world [Hangup ""])
                = Scenario.world [Hangup ""])
  \/ (exists m, RuntimeError "Failed to start SBT process: Failed to match prompt. Index: 3"
                = OtherError m
                /\ Spec.one_more_spawn (Scenario.world [Hangup ""])
                   = Scenario.world [Hangup ""]
                /\ (fs (Scenario.world [Hangup ""]) "/p" = Denied m
                    \/ fs (Scenario.world [Hangup ""]) (joinpath "/p" "build.sbt")
                       = Denied m))
  \/ (exists m, RuntimeError "Failed to start SBT process: Failed to match prompt. Index: 3"
                = RuntimeError m
                /\ Spec.one_more_spawn (Scenario.world [Hangup ""])
                   = Spec.one_more_spawn (Scenario.world [Hangup ""])
                /\ prefix "Failed to start SBT process: " m = true).
Proof.
  exact (startup_errors_classified
           "/p" (Scenario.world [Hangup ""])
           (Spec.one_more_spawn (Scenario.world [Hangup ""]))
           (RuntimeError "Failed to start SBT process: Failed to match prompt. Index: 3")
           eq_refl).
Defined.

(** A command on a running session returns, and the channel has seen its
    [sendline] and its read. *)
Lemma execute_command_returns (self : t) (c : spawn) (command : string) (timeout : Z) :
  process self = Some c ->
  isalive c = true ->
  exists output status self' c',
    execute_command command timeout self = (Ok (output, status), self')
    /\ (status = 0%Z \/ status = 1%Z)
    /\ root self' = root self
    /\ process self' = Some c'
    /\ pid c' = pid c
    /\ trace c' = (trace c ++ [Sendline command;
                               Expect [Re standard_prompt] timeout])%list.
Proof.
  intros Hp Hn.
  rewrite (execute_command_running self c command timeout Hp Hn).
  destruct (scan [Re standard_prompt] (buffer c) (feed c)) as [[r seen] rest].
  destruct r as [i|[]|msg]; do 4 eexists;
    (split; [reflexivity|]); (split; [|now repeat split]).
  - unfold exit_code_of. destruct (Str.isin _ _); auto.
  - now right.
  - now right.
  - now right.
Qed.

(** X3. [execute_command] raises exactly when the session is not running,
    and then it raises [RuntimeError "SBT process is not running"] and
    touches nothing. On a running session it always returns: the status is
    0 or 1, the root and the child are the same, and the channel has seen
    one [sendline] of the command followed by one read for the standard
    prompt with the timeout given, and nothing else. *)
Theorem execute_command_outcome (self : t) (command : string) (timeout : Z) :
  (not_running self = true
   /\ execute_command command timeout self
      = (Raise (RuntimeError "SBT process is not running"), self))
  \/ (not_running self = false
      /\ exists output status self' c c',
           execute_command command timeout self = (Ok (output, status), self')
           /\ (status = 0%Z \/ status = 1%Z)
           /\ root self' = root self
           /\ process self = Some c
           /\ process self' = Some c'
           /\ pid c' = pid c
           /\ trace c' = (trace c ++ [Sendline command;
                                      Expect [Re standard_prompt] timeout])%list).
Proof.
  destruct (not_running self) eqn:Hn.
  - left. split; [reflexivity|]. now apply execute_command_stopped.
  - right. split; [reflexivity|].
    unfold not_running in Hn.
    destruct (process self) as [c|] eqn:Hp; [|discriminate].
    apply negb_false_iff in Hn.
    destruct (execute_command_returns self c command timeout Hp Hn)
      as (output & status & self' & c' & E & Hs & Hr & Hp' & Hpid & Ht).
    exists output, status, self', c, c'. now repeat split.
Qed.

(** X4. When the read of a command fails with an exception that is neither
    a timeout nor end of stream, the call returns "Error executing command:
    " followed by the message of the exception, with status 1, and the
    session is still running. *)
Theorem execute_command_read_failure
        (self : t) (c : spawn) (command : string) (timeout : Z)
        (msg seen : string) (rest : list event) :
  process self = Some c ->
  isalive c = true ->
  scan [Re standard_prompt] (buffer c) (feed c) = (Crash msg, seen, rest) ->
  exists self',
    execute_command command timeout self
    = (Ok ("Error executing command: " ++ msg, 1%Z), self')
    /\ not_running self' = false.
Proof.
  intros Hp Ha Hs.
  rewrite (execute_command_running self c command timeout Hp Ha), Hs.
  eexists. split; reflexivity.
Qed.

Lemma execute_command_read_failure_witness :
  exists self',
    execute_command "compile" 300
      (Scenario.session [Broken "[Errno 5] Input/output error"])
    = (Ok ("Error executing command: " ++ "[Errno 5] Input/output error", 1%Z), self')
    /\ not_running self' = false.
Proof.
  exact (execute_command_read_failure
           (Scenario.session [Broken "[Errno 5] Input/output error"])
           (Scenario.child [Broken "[Errno 5] Input/output error"])
           "compile" 300 "[Errno 5] Input/output error" "" []
           eq_refl eq_refl eq_refl).
Defined.



End More_session.

(* ===================================================================== *)
(** ** Further properties of the cleaned output *)
(* ===================================================================== *)

Section More_output.

Import Str SBTProcess.

Lemma lstrip_fixed (s : string) :
  match s with String c _ => isspace c = false | EmptyString => True end ->
  lstrip s = s.
Proof. destruct s as [|c r]; cbn; [reflexivity|]. now intros ->. Qed.

Lemma lstrip_head (s : string) :
  match lstrip s with String c _ => isspace c = false | EmptyString => True end.
Proof.
  induction s as [|c r IH]; cbn; [exact I|].
  destruct (isspace c) eqn:E; [exact IH | exact E].
Qed.

Lemma rstrip_head (s : string) :
  match s with String c _ => isspace c = false | EmptyString => True end ->
  match rstrip s with String c _ => isspace c = false | EmptyString => True end.
Proof.
  destruct s as [|c r]; cbn; [easy|]. intros E.
  destruct (rstrip r); [now rewrite E | exact E].
Qed.

Lemma rstrip_idempotent (s : string) : rstrip (rstrip s) = rstrip s.
Proof.
  induction s as [|c r IH]; [reflexivity|].
  cbn [rstrip]. destruct (rstrip r) as [|d r'] eqn:E.
  - destruct (isspace c) eqn:Ec; [reflexivity|]. cbn. now rewrite Ec.
  - cbn [rstrip] in IH |- *. now rewrite IH.
Qed.

(** [s.strip().strip() == s.strip()] *)
Lemma strip_idempotent (s : string) : strip (strip s) = strip s.
Proof.
  unfold strip.
  rewrite (lstrip_fixed (rstrip (lstrip s))) by apply rstrip_head, lstrip_head.
  apply rstrip_idempotent.
Qed.

(** X6. The output that [execute_command] computes from the raw text is
    already stripped: stripping it again changes nothing, so it neither
    begins nor ends with white space, whatever the command and the raw
    text. *)
Theorem clean_output_is_stripped (command raw : string) :
  strip (clean_output command raw) = clean_output command raw
  /\ match clean_output command raw with
     | String c _ => isspace c = false
     | EmptyString => True
     end.
Proof.
  rewrite clean_output_cases. split.
  - apply strip_idempotent.
  - unfold strip. apply rstrip_head, lstrip_head.
Qed.

Lemma no_line_feed_cons (c : ascii) (s : string) :
  isin nl (String c s) = false -> Ascii.eqb c LF = false /\ isin nl s = false.
Proof.
  cbn [isin]. intros H. apply orb_false_iff in H as [H1 H2]. split; [|exact H2].
  unfold nl in H1. cbn [prefix] in H1.
  destruct (Ascii.eqb c LF) eqn:E; [|reflexivity].
  apply Ascii.eqb_eq in E. subst c.
  destruct (ascii_dec LF LF) as [_|ne]; [|now elim ne].
  now destruct s.
Qed.

(** The first line of a text that begins with a line without line feed. *)
Lemma first_line_of_lines (line body : string) :
  isin nl line = false ->
  Spec.first_line (line ++ nl ++ body) = line
  /\ Spec.after_first_line (line ++ nl ++ body) = body.
Proof.
  induction line as [|c line IH]; intros H.
  - split; reflexivity.
  - apply no_line_feed_cons in H as [Hc Hl].
    destruct (IH Hl) as [E1 E2].
    cbn [append Spec.first_line Spec.after_first_line].
    rewrite Hc. split; [now rewrite E1 | exact E2].
Qed.

(** X7. When the raw output begins with a line that contains the command
    (the echo, possibly after a prompt remainder and before a carriage
    return), the returned output is the stripped text after that line:
    the echo line is removed whole. *)
Theorem echo_line_is_removed (command before_echo after_echo body : string) :
  isin nl (before_echo ++ command ++ after_echo) = false ->
  clean_output command (before_echo ++ command ++ after_echo ++ nl ++ body)
  = strip body.
Proof.
  intros H.
  rewrite clean_output_cases.
  replace (before_echo ++ command ++ after_echo ++ nl ++ body)
    with ((before_echo ++ command ++ after_echo) ++ nl ++ body)
    by (now rewrite !string_app_assoc).
  destruct (first_line_of_lines _ body H) as [-> ->].
  now rewrite isin_append.
Qed.

Lemma echo_line_is_removed_witness :
  clean_output "compile" ("" ++ "compile" ++ String "013" "" ++ nl ++ "[success] done" ++ nl)
  = strip ("[success] done" ++ nl).
Proof.
  exact (echo_line_is_removed "compile" "" (String "013" "") ("[success] done" ++ nl)
           eq_refl).
Defined.

Lemma isin_empty (hay : string) : isin "" hay = true.
Proof. destruct hay; reflexivity. Qed.

(** With the empty command the test of the first line always holds:
    the first line of the raw output is dropped whatever it is, and the
    result is the stripped text after the first line feed (the empty text
    when there is none). *)
Lemma empty_command_drops_first_line (raw : string) :
  clean_output "" raw = strip (Spec.after_first_line raw).
Proof. now rewrite clean_output_cases, isin_empty. Qed.

End More_output.

(* ===================================================================== *)
(** ** Further properties of the facade *)
(* ===================================================================== *)

Section More_facade.

Import Pexpect OS.

(** [scalac] on a facade that holds a session, by what the session
    answers. *)
Lemma scalac_held (w : World) (p : DottyProject.t) (s : SBTProcess.t)
      (file : string) (options : list string) :
  DottyProject.sbt_process p = Some s ->
  DottyProject.scalac file options (w, p) =
    match SBTProcess.execute_command (Frame.scalac_command file options) 300 s with
    | (Ok (output, exit_code), s') =>
        (Ok (if (exit_code =? 0)%Z && negb (Str.truthy output)
             then "Successfully compiled " ++ file
             else if (exit_code =? 0)%Z && Str.truthy output
                  then "Successfully compiled " ++ file ++ Str.nl ++ Str.nl
                       ++ "Output:" ++ Str.nl ++ output
                  else "Compilation failed for " ++ file ++ Str.nl ++ Str.nl ++ output),
         (w, DottyProject.set_sbt_process (Some s') p))
    | (Raise e, s') =>
        (Ok (DottyProject.report e), (w, DottyProject.set_sbt_process (Some s') p))
    end.
Proof.
  intros H.
  unfold DottyProject.scalac, DottyProject.scalac_body, try_except, bind.
  rewrite (ensure_sbt_running_held w p s H).
  unfold DottyProject.on_sbt_process. cbn [fst snd]. rewrite H.
  replace (match options with [] => [] | _ :: _ => options end) with options
    by (now destruct options).
  fold (Frame.scalac_command file options).
  destruct (SBTProcess.execute_command _ _ _) as [[[output exit_code]|e] s'];
    [|reflexivity].
  unfold ret.
  destruct ((exit_code =? 0)%Z && negb (Str.truthy output)); [reflexivity|].
  destruct ((exit_code =? 0)%Z && Str.truthy output); reflexivity.
Qed.

(** [testCompilation] on a facade that holds a session. *)
Lemma testCompilation_held (w : World) (p : DottyProject.t) (s : SBTProcess.t)
      (pattern : string) :
  DottyProject.sbt_process p = Some s ->
  DottyProject.testCompilation pattern (w, p) =
    match SBTProcess.execute_command (Frame.testCompilation_command pattern) 300 s with
    | (Ok (output, exit_code), s') =>
        (Ok (if (exit_code =? 0)%Z
             then if Str.truthy output
                  then "Test compilation succeeded" ++ Str.nl ++ Str.nl ++ output
                  else "Test compilation succeeded"
             else "Test compilation failed" ++ Str.nl ++ Str.nl ++ output),
         (w, DottyProject.set_sbt_process (Some s') p))
    | (Raise e, s') =>
        (Ok (DottyProject.report e), (w, DottyProject.set_sbt_process (Some s') p))
    end.
Proof.
  intros H.
  unfold DottyProject.testCompilation, DottyProject.testCompilation_body,
    try_except, bind.
  rewrite (ensure_sbt_running_held w p s H).
  unfold DottyProject.on_sbt_process. cbn [fst snd]. rewrite H.
  replace (if Str.truthy pattern then "testCompilation " ++ pattern
           else "testCompilation")
    with (Frame.testCompilation_command pattern) by (now destruct pattern).
  destruct (SBTProcess.execute_command _ _ _) as [[[output exit_code]|e] s'];
    [|reflexivity].
  unfold ret. destruct (exit_code =? 0)%Z; reflexivity.
Qed.

End More_facade.

Section More_facade_running.

Import Pexpect OS.

(** X9. On a facade whose session is running, [scalac] returns, leaves the
    world untouched, keeps the same child, and performs exactly two
    operations on it: one [sendline] of "scalac <file> -color:never
    <options...>" with the options joined by single spaces after
    "-color:never", then one read for the standard prompt with a timeout of
    300 seconds. *)
Theorem scalac_sends_one_command
        (w : World) (p : DottyProject.t) (s : SBTProcess.t) (c : spawn)
        (file : string) (options : list string) :
  DottyProject.sbt_process p = Some s ->
  SBTProcess.process s = Some c ->
  isalive c = true ->
  exists text p' c',
    DottyProject.scalac file options (w, p) = (Ok text, (w, p'))
    /\ DottyProject.root p' = DottyProject.root p
    /\ Frame.child_of p' = Some c'
    /\ pid c' = pid c
    /\ trace c'
       = (trace c ++ [Sendline ("scalac " ++ file ++ " "
                                ++ Str.join " " ("-color:never" :: options));
                      Expect [Re SBTProcess.standard_prompt] 300])%list.
Proof.
  intros Hp Hs Ha.
  rewrite (scalac_held w p s file options Hp).
  destruct (execute_command_returns s c (Frame.scalac_command file options) 300 Hs Ha)
    as (output & status & s' & c' & E & _ & _ & Hp' & Hpid & Ht).
  rewrite E. eexists _, _, c'. split; [reflexivity|].
  split; [reflexivity|]. split; [exact Hp'|]. split; [exact Hpid | exact Ht].
Qed.

Lemma scalac_sends_one_command_witness :
  exists text p' c',
    DottyProject.scalac "Foo.scala" ["-Xprint:typer"] (Scenario.facade (tl Scenario.healthy))
    = (Ok text, (fst (Scenario.facade (tl Scenario.healthy)), p'))
    /\ DottyProject.root p' = "/p"
    /\ Frame.child_of p' = Some c'
    /\ pid c' = 0
    /\ trace c'
       = [Expect SBTProcess.startup_patterns 120;
          Sendline "scalac Foo.scala -color:never -Xprint:typer";
          Expect [Re SBTProcess.standard_prompt] 300].
Proof.
  exact (scalac_sends_one_command
           (fst (Scenario.facade (tl Scenario.healthy)))
           (snd (Scenario.facade (tl Scenario.healthy)))
           (Scenario.session (tl Scenario.healthy))
           (Scenario.child (tl Scenario.healthy))
           "Foo.scala" ["-Xprint:typer"] eq_refl eq_refl eq_refl).
Defined.

(** X10. On a facade whose session is running, [testCompilation] returns,
    leaves the world untouched, keeps the same child, and performs exactly
    two operations on it: one [sendline] of "testCompilation" alone when
    the pattern is empty and of "testCompilation <pattern>" otherwise, then
    one read for the standard prompt with a timeout of 300 seconds. *)
Theorem testCompilation_sends_one_command
        (w : World) (p : DottyProject.t) (s : SBTProcess.t) (c : spawn)
        (pattern : string) :
  DottyProject.sbt_process p = Some s ->
  SBTProcess.process s = Some c ->
  isalive c = true ->
  exists text p' c',
    DottyProject.testCompilation pattern (w, p) = (Ok text, (w, p'))
    /\ DottyProject.root p' = DottyProject.root p
    /\ Frame.child_of p' = Some c'
    /\ pid c' = pid c
    /\ trace c'
       = (trace c ++ [Sendline (match pattern with
                                | EmptyString => "testCompilation"
                                | _ => "testCompilation " ++ pattern
                                end);
                      Expect [Re SBTProcess.standard_prompt] 300])%list.
Proof.
  intros Hp Hs Ha.
  rewrite (testCompilation_held w p s pattern Hp).
  destruct (execute_command_returns s c (Frame.testCompilation_command pattern) 300 Hs Ha)
    as (output & status & s' & c' & E & _ & _ & Hp' & Hpid & Ht).
  rewrite E. eexists _, _, c'. split; [reflexivity|].
  split; [reflexivity|]. split; [exact Hp'|]. split; [exact Hpid | exact Ht].
Qed.

Lemma testCompilation_sends_one_command_witness :
  exists text p' c',
    DottyProject.testCompilation "" (Scenario.facade (tl Scenario.healthy))
    = (Ok text, (fst (Scenario.facade (tl Scenario.healthy)), p'))
    /\ DottyProject.root p' = "/p"
    /\ Frame.child_of p' = Some c'
    /\ pid c' = 0
    /\ trace c'
       = [Expect SBTProcess.startup_patterns 120;
          Sendline "testCompilation";
          Expect [Re SBTProcess.standard_prompt] 300].
Proof.
  exact (testCompilation_sends_one_command
           (fst (Scenario.facade (tl Scenario.healthy)))
           (snd (Scenario.facade (tl Scenario.healthy)))
           (Scenario.session (tl Scenario.healthy))
           (Scenario.child (tl Scenario.healthy))
           "" eq_refl eq_refl eq_refl).
Defined.

(** The status 0 or 1 of a cleaned output, as a test on the marker. *)
Lemma exit_code_of_cases (output : string) :
  (Spec.mentions "[error]" output /\ SBTProcess.exit_code_of output = 1%Z)
  \/ (~ Spec.mentions "[error]" output /\ SBTProcess.exit_code_of output = 0%Z).
Proof.
  unfold SBTProcess.exit_code_of.
  destruct (Str.isin "[error]" (Str.lower output)) eqn:E.
  - left. split; [now apply mentions_marker_iff | reflexivity].
  - right. split; [|reflexivity].
    intros H. apply mentions_marker_iff in H. congruence.
Qed.

(** X11. When the read of [scalac]'s command ends at the prompt, the text
    returned follows the cleaned output: if it contains "[error]" in some
    letter case, "Compilation failed for <file>", an empty line and the
    output; if not and it is empty, "Successfully compiled <file>" alone;
    if not and it is not empty, "Successfully compiled <file>", an empty
    line, "Output:" and the output. *)
Theorem scalac_result_on_prompt
        (w : World) (p : DottyProject.t) (s : SBTProcess.t) (c : spawn)
        (file : string) (options : list string)
        (i : nat) (raw : string) (rest : list event) :
  DottyProject.sbt_process p = Some s ->
  SBTProcess.process s = Some c ->
  isalive c = true ->
  scan [Re SBTProcess.standard_prompt] (buffer c) (feed c) = (Hit i, raw, rest) ->
  exists text st' output,
    DottyProject.scalac file options (w, p) = (Ok text, st')
    /\ output = SBTProcess.clean_output (Frame.scalac_command file options) raw
    /\ ((Spec.mentions "[error]" output
         /\ text = "Compilation failed for " ++ file ++ Str.nl ++ Str.nl ++ output)
        \/ (~ Spec.mentions "[error]" output /\ output = ""
            /\ text = "Successfully compiled " ++ file)
        \/ (~ Spec.mentions "[error]" output /\ output <> ""
            /\ text = "Successfully compiled " ++ file ++ Str.nl ++ Str.nl
                      ++ "Output:" ++ Str.nl ++ output)).
Proof.
  intros Hp Hs Ha Hr.
  rewrite (scalac_held w p s file options Hp).
  rewrite (execute_command_running s c _ 300 Hs Ha), Hr.
  set (output := SBTProcess.clean_output (Frame.scalac_command file options) raw).
  do 2 eexists. exists output. split; [reflexivity|]. split; [reflexivity|].
  destruct (exit_code_of_cases output) as [[Hm ->]|[Hm ->]].
  - left. now split.
  - right. destruct output as [|a o]; [left | right]; cbn; repeat split; try easy.
Qed.

Lemma scalac_result_on_prompt_witness :
  exists text st' output,
    DottyProject.scalac "Foo.scala" [] (Scenario.facade (tl Scenario.healthy))
    = (Ok text, st')
    /\ output
       = SBTProcess.clean_output
           (Frame.scalac_command "Foo.scala" [])
           ("scalac Foo.scala -color:never" ++ Str.nl
            ++ "Successfully compiled Foo.scala" ++ Str.nl)
    /\ ((Spec.mentions "[error]" output
         /\ text = "Compilation failed for " ++ "Foo.scala" ++ Str.nl ++ Str.nl ++ output)
        \/ (~ Spec.mentions "[error]" output /\ output = ""
            /\ text = "Successfully compiled " ++ "Foo.scala")
        \/ (~ Spec.mentions "[error]" output /\ output <> ""
            /\ text = "Successfully compiled " ++ "Foo.scala" ++ Str.nl ++ Str.nl
                      ++ "Output:" ++ Str.nl ++ output)).
Proof.
  exact (scalac_result_on_prompt
           (fst (Scenario.facade (tl Scenario.healthy)))
           (snd (Scenario.facade (tl Scenario.healthy)))
           (Scenario.session (tl Scenario.healthy))
           (Scenario.child (tl Scenario.healthy))
           "Foo.scala" [] 0
           ("scalac Foo.scala -color:never" ++ Str.nl
            ++ "Successfully compiled Foo.scala" ++ Str.nl) []
           eq_refl eq_refl eq_refl eq_refl).
Defined.

(** X12. When the read of [testCompilation]'s command ends at the prompt,
    the text returned follows the cleaned output: if it contains "[error]"
    in some letter case, "Test compilation failed", an empty line and the
    output; if not and it is empty, "Test compilation succeeded" alone; if
    not and it is not empty, "Test compilation succeeded", an empty line
    and the output. *)
Theorem testCompilation_result_on_prompt
        (w : World) (p : DottyProject.t) (s : SBTProcess.t) (c : spawn)
        (pattern : string) (i : nat) (raw : string) (rest : list event) :
  DottyProject.sbt_process p = Some s ->
  SBTProcess.process s = Some c ->
  isalive c = true ->
  scan [Re SBTProcess.standard_prompt] (buffer c) (feed c) = (Hit i, raw, rest) ->
  exists text st' output,
    DottyProject.testCompilation pattern (w, p) = (Ok text, st')
    /\ output = SBTProcess.clean_output (Frame.testCompilation_command pattern) raw
    /\ ((Spec.mentions "[error]" output
         /\ text = "Test compilation failed" ++ Str.nl ++ Str.nl ++ output)
        \/ (~ Spec.mentions "[error]" output /\ output = ""
            /\ text = "Test compilation succeeded")
        \/ (~ Spec.mentions "[error]" output /\ output <> ""
            /\ text = "Test compilation succeeded" ++ Str.nl ++ Str.nl ++ output)).
Proof.
  intros Hp Hs Ha Hr.
  rewrite (testCompilation_held w p s pattern Hp).
  rewrite (execute_command_running s c _ 300 Hs Ha), Hr.
  set (output := SBTProcess.clean_output (Frame.testCompilation_command pattern) raw).
  do 2 eexists. exists output. split; [reflexivity|]. split; [reflexivity|].
  destruct (exit_code_of_cases output) as [[Hm ->]|[Hm ->]].
  - left. now split.
  - right. destruct output as [|a o]; [left | right]; cbn; repeat split; try easy.
Qed.

Lemma testCompilation_result_on_prompt_witness :
  exists text st' output,
    DottyProject.testCompilation "pos/i1234"
      (Scenario.facade [Prompt "[error] Test failed" SBTProcess.standard_prompt])
    = (Ok text, st')
    /\ output
       = SBTProcess.clean_output
           (Frame.testCompilation_command "pos/i1234") "[error] Test failed"
    /\ ((Spec.mentions "[error]" output
         /\ text = "Test compilation failed" ++ Str.nl ++ Str.nl ++ output)
        \/ (~ Spec.mentions "[error]" output /\ output = ""
            /\ text = "Test compilation succeeded")
        \/ (~ Spec.mentions "[error]" output /\ output <> ""
            /\ text = "Test compilation succeeded" ++ Str.nl ++ Str.nl ++ output)).
Proof.
  exact (testCompilation_result_on_prompt
           (fst (Scenario.facade [Prompt "[error] Test failed" SBTProcess.standard_prompt]))
           (snd (Scenario.facade [Prompt "[error] Test failed" SBTProcess.standard_prompt]))
           (Scenario.session [Prompt "[error] Test failed" SBTProcess.standard_prompt])
           (Scenario.child [Prompt "[error] Test failed" SBTProcess.standard_prompt])
           "pos/i1234" 0 "[error] Test failed" []
           eq_refl eq_refl eq_refl eq_refl).
Defined.

(** X13. A command that times out, or whose child hangs up, is reported by
    the facade as a failure of the compilation or of the tests: the text
    returned is the failure heading, an empty line, and "Command timed out
    after 300 seconds" or "SBT process terminated unexpectedly". *)
Theorem facade_reports_timeout_and_hangup_as_failure
        (w : World) (p : DottyProject.t) (s : SBTProcess.t) (c : spawn)
        (file : string) (options : list string) (pattern : string)
        (cause : sentinel) (seen : string) (rest : list event) :
  DottyProject.sbt_process p = Some s ->
  SBTProcess.process s = Some c ->
  isalive c = true ->
  scan [Re SBTProcess.standard_prompt] (buffer c) (feed c) = (Miss cause, seen, rest) ->
  fst (DottyProject.scalac file options (w, p))
  = Ok ("Compilation failed for " ++ file ++ Str.nl ++ Str.nl
        ++ match cause with
           | TIMEOUT => "Command timed out after 300 seconds"
           | EOF => "SBT process terminated unexpectedly"
           end)
  /\ fst (DottyProject.testCompilation pattern (w, p))
     = Ok ("Test compilation failed" ++ Str.nl ++ Str.nl
           ++ match cause with
              | TIMEOUT => "Command timed out after 300 seconds"
              | EOF => "SBT process terminated unexpectedly"
              end).
Proof.
  intros Hp Hs Ha Hr.
  rewrite (scalac_held w p s file options Hp).
  rewrite (testCompilation_held w p s pattern Hp).
  rewrite !(execute_command_running s c _ 300 Hs Ha), Hr.
  destruct cause; split; reflexivity.
Qed.

Lemma facade_reports_timeout_and_hangup_as_failure_witness :
  fst (DottyProject.scalac "Foo.scala" [] (Scenario.facade [Quiet "[info] compiling"]))
  = Ok ("Compilation failed for " ++ "Foo.scala" ++ Str.nl ++ Str.nl
        ++ "Command timed out after 300 seconds")
  /\ fst (DottyProject.testCompilation "" (Scenario.facade [Quiet "[info] compiling"]))
     = Ok ("Test compilation failed" ++ Str.nl ++ Str.nl
           ++ "Command timed out after 300 seconds").
Proof.
  exact (facade_reports_timeout_and_hangup_as_failure
           (fst (Scenario.facade [Quiet "[info] compiling"]))
           (snd (Scenario.facade [Quiet "[info] compiling"]))
           (Scenario.session [Quiet "[info] compiling"])
           (Scenario.child [Quiet "[info] compiling"])
           "Foo.scala" [] "" TIMEOUT "[info] compiling" []
           eq_refl eq_refl eq_refl eq_refl).
Defined.

End More_facade_running.

(* ===================================================================== *)
(** ** What the facade and the tools do to the world *)
(* ===================================================================== *)

Section More_world.

Import Pexpect OS.

(** [SBTProcess(root)] launches at most one child. *)
Lemma new_frame (root_ : string) (w w' : World) (r : res SBTProcess.t) :
  SBTProcess.new root_ w = (r, w') -> Frame.at_most_one_launch w w'.
Proof.
  rewrite new_cases. unfold Frame.at_most_one_launch.
  destruct (fs w root_); try (intros [= _ <-]; now left).
  destruct (fs w (joinpath root_ "build.sbt")); try (intros [= _ <-]; now left).
  destruct (launcher w (spawned w)) as [evs|msg]; [|intros [= _ <-]; now right].
  destruct (scan SBTProcess.startup_patterns "" evs) as [[k seen] rest].
  destruct k as [i|[]|msg]; try (intros [= _ <-]; now right).
  destruct (3 <=? i)%nat; intros [= _ <-]; now right.
Qed.

(** The three ways [ensure_sbt_running] can go. *)
Lemma ensure_sbt_running_cases (w : World) (p : DottyProject.t) :
  (exists s, DottyProject.sbt_process p = Some s
             /\ DottyProject.ensure_sbt_running (w, p) = (Ok tt, (w, p)))
  \/ (DottyProject.sbt_process p = None
      /\ exists s w', SBTProcess.new (DottyProject.root p) w = (Ok s, w')
                      /\ DottyProject.ensure_sbt_running (w, p)
                         = (Ok tt, (w', DottyProject.set_sbt_process (Some s) p)))
  \/ (DottyProject.sbt_process p = None
      /\ exists e w', SBTProcess.new (DottyProject.root p) w = (Raise e, w')
                      /\ DottyProject.ensure_sbt_running (w, p) = (Raise e, (w', p))).
Proof.
  destruct (DottyProject.sbt_process p) as [s|] eqn:Hp.
  - left. exists s. split; [reflexivity|]. now apply (ensure_sbt_running_held w p s).
  - right. rewrite (ensure_sbt_running_empty w p Hp).
    destruct (SBTProcess.new (DottyProject.root p) w) as [[s|e] w'].
    + left. split; [reflexivity|]. now exists s, w'.
    + right. split; [reflexivity|]. now exists e, w'.
Qed.

(** X14. A startup that fails is not remembered. When
    [ensure_sbt_running] raises, the facade is exactly as before and holds
    no session, at most one child was launched, and the next call starts
    over with a new [SBTProcess(root)] in the world left behind. *)
Theorem failed_startup_is_not_kept
        (w w' : World) (p p' : DottyProject.t) (e : exn) :
  DottyProject.ensure_sbt_running (w, p) = (Raise e, (w', p')) ->
  p' = p
  /\ DottyProject.sbt_process p = None
  /\ Frame.at_most_one_launch w w'
  /\ DottyProject.ensure_sbt_running (w', p')
     = match SBTProcess.new (DottyProject.root p) w' with
       | (Ok s, w'') => (Ok tt, (w'', DottyProject.set_sbt_process (Some s) p))
       | (Raise e', w'') => (Raise e', (w'', p))
       end.
Proof.
  intros H.
  destruct (ensure_sbt_running_cases w p)
    as [(s & _ & E) | [(_ & s & w1 & _ & E) | (Hp & e1 & w1 & Hn & E)]];
    rewrite E in H; try discriminate.
  injection H as <- <- <-.
  split; [reflexivity|]. split; [exact Hp|].
  split; [exact (new_frame _ _ _ _ Hn)|].
  now apply ensure_sbt_running_empty.
Qed.

Lemma failed_startup_is_not_kept_witness :
  DottyProject.__init__ "/p" = DottyProject.__init__ "/p"
  /\ DottyProject.sbt_process (DottyProject.__init__ "/p") = None
  /\ Frame.at_most_one_launch
       (Scenario.world [Hangup ""]) (Spec.one_more_spawn (Scenario.world [Hangup ""]))
  /\ DottyProject.ensure_sbt_running
       (Spec.one_more_spawn (Scenario.world [Hangup ""]), DottyProject.__init__ "/p")
     = match SBTProcess.new (DottyProject.root (DottyProject.__init__ "/p"))
               (Spec.one_more_spawn (Scenario.world [Hangup ""])) with
       | (Ok s, w'') =>
           (Ok tt, (w'', DottyProject.set_sbt_process (Some s) (DottyProject.__init__ "/p")))
       | (Raise e', w'') => (Raise e', (w'', DottyProject.__init__ "/p"))
       end.
Proof.
  exact (failed_startup_is_not_kept
           (Scenario.world [Hangup ""])
           (Spec.one_more_spawn (Scenario.world [Hangup ""]))
           (DottyProject.__init__ "/p") (DottyProject.__init__ "/p")
           (RuntimeError "Failed to start SBT process: Failed to match prompt. Index: 3")
           eq_refl).
Defined.

(** [scalac] runs [ensure_sbt_running] and then behaves as on the facade
    that holds the session; an error of the startup is reported at once. *)
Lemma scalac_by_startup (w : World) (p : DottyProject.t)
      (file : string) (options : list string) :
  match DottyProject.ensure_sbt_running (w, p) with
  | (Ok _, st1) =>
      DottyProject.scalac file options (w, p) = DottyProject.scalac file options st1
  | (Raise e, st1) =>
      DottyProject.scalac file options (w, p) = (Ok (DottyProject.report e), st1)
  end.
Proof.
  unfold DottyProject.scalac, DottyProject.scalac_body, try_except, bind.
  destruct (ensure_sbt_running_cases w p)
    as [(s & _ & E) | [(_ & s & w1 & _ & E) | (Hp & e1 & w1 & Hn & E)]];
    rewrite E.
  - now rewrite E.
  - now rewrite (ensure_sbt_running_held
                   w1 (DottyProject.set_sbt_process (Some s) p) s eq_refl).
  - reflexivity.
Qed.

Lemma testCompilation_by_startup (w : World) (p : DottyProject.t) (pattern : string) :
  match DottyProject.ensure_sbt_running (w, p) with
  | (Ok _, st1) =>
      DottyProject.testCompilation pattern (w, p)
      = DottyProject.testCompilation pattern st1
  | (Raise e, st1) =>
      DottyProject.testCompilation pattern (w, p) = (Ok (DottyProject.report e), st1)
  end.
Proof.
  unfold DottyProject.testCompilation, DottyProject.testCompilation_body,
    try_except, bind.
  destruct (ensure_sbt_running_cases w p)
    as [(s & _ & E) | [(_ & s & w1 & _ & E) | (Hp & e1 & w1 & Hn & E)]];
    rewrite E.
  - now rewrite E.
  - now rewrite (ensure_sbt_running_held
                   w1 (DottyProject.set_sbt_process (Some s) p) s eq_refl).
  - reflexivity.
Qed.

(** On a facade that holds a session, both methods return, keep the world
    and the root, and keep holding a session. *)
Lemma methods_held_frame (w : World) (p : DottyProject.t) (s : SBTProcess.t)
      (file : string) (options : list string) (pattern : string) :
  DottyProject.sbt_process p = Some s ->
  (exists text s',
      DottyProject.scalac file options (w, p)
      = (Ok text, (w, DottyProject.set_sbt_process (Some s') p)))
  /\ (exists text s',
         DottyProject.testCompilation pattern (w, p)
         = (Ok text, (w, DottyProject.set_sbt_process (Some s') p))).
Proof.
  intros Hp. split.
  - rewrite (scalac_held w p s file options Hp).
    destruct (SBTProcess.execute_command _ _ _) as [[[o k]|e] s']; now eexists _, s'.
  - rewrite (testCompilation_held w p s pattern Hp).
    destruct (SBTProcess.execute_command _ _ _) as [[[o k]|e] s']; now eexists _, s'.
Qed.

(** What one call of a method of the facade does to the world and to the
    facade. *)
Lemma methods_frame (w : World) (p : DottyProject.t)
      (file : string) (options : list string) (pattern : string) :
  (exists text w' p',
      DottyProject.scalac file options (w, p) = (Ok text, (w', p'))
      /\ Frame.at_most_one_launch w w'
      /\ DottyProject.root p' = DottyProject.root p
      /\ match DottyProject.sbt_process p with
         | Some _ => w' = w /\ DottyProject.sbt_process p' <> None
         | None => True
         end)
  /\ (exists text w' p',
         DottyProject.testCompilation pattern (w, p) = (Ok text, (w', p'))
         /\ Frame.at_most_one_launch w w'
         /\ DottyProject.root p' = DottyProject.root p
         /\ match DottyProject.sbt_process p with
            | Some _ => w' = w /\ DottyProject.sbt_process p' <> None
            | None => True
            end).
Proof.
  pose proof (scalac_by_startup w p file options) as Hs.
  pose proof (testCompilation_by_startup w p pattern) as Ht.
  destruct (ensure_sbt_running_cases w p)
    as [(s & Hp & E) | [(Hp & s & w1 & Hn & E) | (Hp & e1 & w1 & Hn & E)]];
    rewrite E in Hs, Ht; rewrite Hp.
  - destruct (methods_held_frame w p s file options pattern Hp)
      as [(t1 & s1 & E1) (t2 & s2 & E2)].
    split; do 3 eexists; (split; [eassumption|]);
      (split; [now left|]); (split; [reflexivity|]); now split.
  - destruct (methods_held_frame
                w1 (DottyProject.set_sbt_process (Some s) p) s file options pattern
                eq_refl) as [(t1 & s1 & E1) (t2 & s2 & E2)].
    rewrite E1 in Hs. rewrite E2 in Ht.
    split; do 3 eexists; (split; [eassumption|]);
      (split; [exact (new_frame _ _ _ _ Hn)|]); now split.
  - split; do 3 eexists; (split; [eassumption|]);
      (split; [exact (new_frame _ _ _ _ Hn)|]); now split.
Qed.

(** X15. One call of [scalac] or of [testCompilation] on any facade in any
    world returns a text, launches at most one child and changes nothing
    else in the world, and keeps the root of the facade. On a facade that
    already holds a session the world is not touched at all: the file
    system is not probed and nothing is launched. *)
Theorem facade_methods_launch_at_most_once
        (w : World) (p : DottyProject.t)
        (file : string) (options : list string) (pattern : string) :
  (exists text w' p',
      DottyProject.scalac file options (w, p) = (Ok text, (w', p'))
      /\ Frame.at_most_one_launch w w'
      /\ DottyProject.root p' = DottyProject.root p
      /\ match DottyProject.sbt_process p with
         | Some _ => w' = w /\ DottyProject.sbt_process p' <> None
         | None => True
         end)
  /\ (exists text w' p',
         DottyProject.testCompilation pattern (w, p) = (Ok text, (w', p'))
         /\ Frame.at_most_one_launch w w'
         /\ DottyProject.root p' = DottyProject.root p
         /\ match DottyProject.sbt_process p with
            | Some _ => w' = w /\ DottyProject.sbt_process p' <> None
            | None => True
            end).
Proof. apply methods_frame. Qed.

(** X16. The two tools never raise. Without a project they answer "Error:
    No Dotty project root specified. Use --root argument." and touch
    nothing. With a project they launch at most one child, and [PROJECT]
    stays bound to a project of the same root. *)
Theorem tools_are_total
        (w : World) (project : option DottyProject.t)
        (file : string) (options : option (list string)) (pattern : string) :
  (exists text w' project',
      Server.scalac file options (w, project) = (Ok text, (w', project'))
      /\ Frame.at_most_one_launch w w'
      /\ match project with
         | None => text = Server.no_project /\ w' = w /\ project' = None
         | Some p => exists p', project' = Some p'
                                /\ DottyProject.root p' = DottyProject.root p
         end)
  /\ (exists text w' project',
         Server.testCompilation pattern (w, project) = (Ok text, (w', project'))
         /\ Frame.at_most_one_launch w w'
         /\ match project with
            | None => text = Server.no_project /\ w' = w /\ project' = None
            | Some p => exists p', project' = Some p'
                                   /\ DottyProject.root p' = DottyProject.root p
            end).
Proof.
  destruct project as [p|].
  - destruct (methods_frame w p file
                (match options with None => [] | Some o => o end) pattern)
      as [(t1 & w1 & p1 & E1 & F1 & R1 & _) (t2 & w2 & p2 & E2 & F2 & R2 & _)].
    unfold Server.scalac, Server.testCompilation, Server.on_PROJECT, bind, gets.
    cbn [fst snd]. rewrite E1, E2.
    split; do 3 eexists; (split; [reflexivity|]); (split; [eassumption|]);
      eexists; split; [reflexivity|assumption|reflexivity|assumption].
  - split; do 3 eexists; (split; [reflexivity|]); (split; [now left|]); now repeat split.
Qed.

(** [close] on any session returns and leaves it not running, with the
    same root. *)
Lemma close_settles (self : SBTProcess.t) :
  exists self1,
    SBTProcess.close self = (Ok tt, self1)
    /\ SBTProcess.not_running self1 = true
    /\ SBTProcess.root self1 = SBTProcess.root self.
Proof.
  destruct (SBTProcess.not_running self) eqn:Hn.
  - exists self. now rewrite (close_stopped self Hn).
  - destruct self as [root_ [c|]]; [|discriminate].
    destruct c as [pid_ [] before_ buffer_ feed_ trace_]; [|discriminate].
    unfold SBTProcess.close, bind, gets, try_except, SBTProcess.on_process,
      sendline, expect, terminate, logged, SBTProcess.set_process, isalive, ret,
      SBTProcess.not_running.
    cbn.
    destruct (scan [Sentinel EOF] buffer_ feed_) as [[k seen] rest] eqn:Hs.
    destruct k as [i|[]|msg]; cbn.
    + now apply scan_eof_only in Hs.
    + eexists. now repeat split.
    + eexists. now repeat split.
    + eexists. now repeat split.
Qed.

(** X17. The [cleanup] registered at exit never raises and leaves the
    world as it is. Afterwards [PROJECT] is bound as before, to a project
    of the same root that holds a session exactly if it held one, and that
    session is not running. Running [cleanup] again changes nothing. *)
Theorem cleanup_stops_the_session (w : World) (project : option DottyProject.t) :
  exists project',
    Server.cleanup (w, project) = (Ok tt, (w, project'))
    /\ Server.cleanup (w, project') = (Ok tt, (w, project'))
    /\ match project, project' with
       | None, None => True
       | Some p, Some p' =>
           DottyProject.root p' = DottyProject.root p
           /\ match DottyProject.sbt_process p, DottyProject.sbt_process p' with
              | None, None => True
              | Some s, Some s' =>
                  SBTProcess.not_running s' = true
                  /\ SBTProcess.root s' = SBTProcess.root s
              | _, _ => False
              end
       | _, _ => False
       end.
Proof.
  destruct project as [p|]; [|now exists None].
  destruct p as [root_ [s|]].
  - destruct (close_settles s) as (s1 & E & Hn & Hr).
    exists (Some {| DottyProject.root := root_; DottyProject.sbt_process := Some s1 |}).
    unfold Server.cleanup, Server.on_PROJECT, DottyProject.close,
      DottyProject.on_sbt_process, bind, gets.
    cbn -[SBTProcess.close]. rewrite E. cbn -[SBTProcess.close].
    rewrite (close_stopped s1 Hn). now repeat split.
  - exists (Some {| DottyProject.root := root_; DottyProject.sbt_process := None |}).
    now repeat split.
Qed.

End More_world.

Section More_output_edges.

Import Str SBTProcess.

Lemma single_line (raw : string) :
  isin nl raw = false ->
  Spec.first_line raw = raw /\ Spec.after_first_line raw = "".
Proof.
  induction raw as [|c raw IH]; intros H; [now split|].
  apply no_line_feed_cons in H as [Hc Hl]. destruct (IH Hl) as [E1 E2].
  cbn [Spec.first_line Spec.after_first_line]. rewrite Hc.
  split; [now rewrite E1 | exact E2].
Qed.

(** X8. A raw output of a single line (no line feed) that contains the
    command text anywhere is dropped whole: the returned output is empty
    and the status is 0, whatever else the line says. *)
Theorem single_line_with_command_is_lost (command raw : string) :
  isin nl raw = false ->
  isin command raw = true ->
  clean_output command raw = ""
  /\ exit_code_of (clean_output command raw) = 0%Z.
Proof.
  intros Hl Hc. rewrite clean_output_cases.
  destruct (single_line raw Hl) as [-> ->]. rewrite Hc. now split.
Qed.

Lemma single_line_with_command_is_lost_witness :
  clean_output "compile" "[error] compile failed" = ""
  /\ exit_code_of (clean_output "compile" "[error] compile failed") = 0%Z.
Proof.
  exact (single_line_with_command_is_lost "compile" "[error] compile failed"
           eq_refl eq_refl).
Defined.

End More_output_edges.
